(** * e2e-test-agent: the test orchestrator of [TestAgent.ts]

    A shallow embedding of the [TestAgent] class (loader, prompt builder,
    orchestrator, reporter) and the properties its specification states.

    Conventions of the embedding.
    - A JavaScript string is the list of its UTF-16 code units ([jsstring]).
    - An [async] method is a function from the state of the run (the outside
      world plus what was written to the console) to a completion (a value
      or a thrown value) and the next state.
    - The outside world (file system, clock, agent, [path] module) is the
      [Runtime] record; the class is defined over an arbitrary one. *)

From Stdlib Require Import List Bool Arith ZArith NArith Lia.
From Stdlib Require Import Ascii String DecimalString.
From Stdlib Require Import Sorting Permutation.
Import ListNotations.
Local Open Scope list_scope.

Set Implicit Arguments.
Set Warnings "-register-all".

(* ================================================================= *)
(** ** JavaScript strings *)

Module JsString.

(** A string is its sequence of UTF-16 code units. *)
Definition jsstring := list N.

(** String literals of the source, written as Rocq strings (ASCII only). *)
Definition str (s : string) : jsstring :=
  map N_of_ascii (list_ascii_of_string s).
Arguments str s%_string.

(** The line feed of a template literal and the double quote. *)
Definition nl : jsstring := [10%N].
Definition dq : jsstring := [34%N].

Definition eqb (a b : jsstring) : bool :=
  if list_eq_dec N.eq_dec a b then true else false.

(** [String.prototype.repeat]. *)
Fixpoint repeat (s : jsstring) (count : nat) : jsstring :=
  match count with
  | O => []
  | S k => s ++ repeat s k
  end.

(** [Array.prototype.join] on an array of strings. *)
Fixpoint join (sep : jsstring) (l : list jsstring) : jsstring :=
  match l with
  | [] => []
  | [x] => x
  | x :: rest => x ++ sep ++ join sep rest
  end.

(** [String(n)] for an integral number below 1e21 in magnitude, where
    JavaScript prints every digit; the ordinals and counts of a run stay
    far below. *)
Definition ofZ (z : Z) : jsstring :=
  str (NilZero.string_of_int (Z.to_int z)).

(** ECMAScript WhiteSpace and LineTerminator code points: what
    [String.prototype.trim] strips. *)
Definition isWhiteSpace (c : N) : bool :=
  ((9 <=? c) && (c <=? 13)       (* TAB LF VT FF CR *)
   || (c =? 32)                  (* SP *)
   || (c =? 160)                 (* NBSP *)
   || (c =? 5760)                (* U+1680 *)
   || ((8192 <=? c) && (c <=? 8202)) (* U+2000 .. U+200A *)
   || (c =? 8232) || (c =? 8233) (* LS PS *)
   || (c =? 8239)                (* U+202F *)
   || (c =? 8287)                (* U+205F *)
   || (c =? 12288)               (* U+3000 *)
   || (c =? 65279))%N%bool.      (* ZWNBSP *)

Fixpoint trimStart (s : jsstring) : jsstring :=
  match s with
  | [] => []
  | c :: rest => if isWhiteSpace c then trimStart rest else s
  end.

Definition trimEnd (s : jsstring) : jsstring :=
  rev (trimStart (rev s)).

(** [String.prototype.trim]. *)
Definition trim (s : jsstring) : jsstring :=
  trimEnd (trimStart s).

(** Only white space (the empty string included). *)
Definition isBlank (s : jsstring) : bool := forallb isWhiteSpace s.

(** [s.startsWith(p)] at position 0. *)
Fixpoint startsWith (s p : jsstring) {struct p} : bool :=
  match p, s with
  | [], _ => true
  | _ :: _, [] => false
  | a :: p', b :: s' => (a =? b)%N && startsWith s' p'
  end.

(** [s.endsWith(p)]: the last [length p] code units of [s] are [p]. *)
Definition endsWith (s p : jsstring) : bool :=
  if List.length s <? List.length p then false
  else eqb (skipn (List.length s - List.length p) s) p.

(** [s.includes(p)]. *)
Fixpoint includes (s p : jsstring) : bool :=
  startsWith s p ||
  match s with
  | [] => false
  | _ :: s' => includes s' p
  end.

(** The comparison of the default [Array.prototype.sort]: code unit by
    code unit, a proper prefix first. *)
Fixpoint compare (a b : jsstring) : comparison :=
  match a, b with
  | [], [] => Eq
  | [], _ :: _ => Lt
  | _ :: _, [] => Gt
  | x :: a', y :: b' =>
      match (x ?= y)%N with
      | Eq => compare a' b'
      | c => c
      end
  end.

Definition leb (a b : jsstring) : bool :=
  match compare a b with Gt => false | _ => true end.

(** [t] occurs in [s] as a contiguous substring. *)
Definition Substring (t s : jsstring) : Prop :=
  exists pre post, s = pre ++ t ++ post.

(** No leading and no trailing white space. *)
Definition Trimmed (s : jsstring) : Prop :=
  (forall c rest, s = c :: rest -> isWhiteSpace c = false) /\
  (forall init c, s = init ++ [c] -> isWhiteSpace c = false).

End JsString.
Import JsString.

(* ================================================================= *)
(** ** The prompt builder *)

(** The template literal of [buildTestPrompt], lines 65-80, and its
    [trim]; [currentDateTime] is the value of [new Date().toISOString()]
    at the call. *)
Definition promptTemplate (currentDateTime testContent : jsstring) : jsstring :=
  nl ++
  str "Current Date/Time: " ++ currentDateTime ++ nl ++
  nl ++
  str "Instructions:" ++ nl ++
  str "- Follow the test steps below carefully" ++ nl ++
  str "- Return your response in JSON format with the following structure:" ++ nl ++
  str "  {" ++ nl ++
  str "    " ++ dq ++ str "success" ++ dq ++ str ": boolean," ++ nl ++
  str "    " ++ dq ++ str "steps_completed" ++ dq ++ str ": string[]," ++ nl ++
  str "    " ++ dq ++ str "observations" ++ dq ++ str ": string," ++ nl ++
  str "    " ++ dq ++ str "final_status" ++ dq ++ str ": string" ++ nl ++
  str "  }" ++ nl ++
  nl ++
  str "Test Steps:" ++ nl ++
  testContent ++ nl.

Definition buildTestPromptAt (currentDateTime testContent : jsstring) : jsstring :=
  trim (promptTemplate currentDateTime testContent).

Definition sampleTime : jsstring := str "2026-01-01T00:00:00.000Z".

(** The parts of the trimmed prompt: the header that carries the
    timestamp, and the fixed block from the blank line after it up to the
    label of the test steps. *)
Definition promptHeader (currentDateTime : jsstring) : jsstring :=
  str "Current Date/Time: " ++ currentDateTime.

Definition instructionBlock : jsstring :=
  Eval cbv in
  nl ++
  nl ++
  str "Instructions:" ++ nl ++
  str "- Follow the test steps below carefully" ++ nl ++
  str "- Return your response in JSON format with the following structure:" ++ nl ++
  str "  {" ++ nl ++
  str "    " ++ dq ++ str "success" ++ dq ++ str ": boolean," ++ nl ++
  str "    " ++ dq ++ str "steps_completed" ++ dq ++ str ": string[]," ++ nl ++
  str "    " ++ dq ++ str "observations" ++ dq ++ str ": string," ++ nl ++
  str "    " ++ dq ++ str "final_status" ++ dq ++ str ": string" ++ nl ++
  str "  }" ++ nl ++
  nl ++
  str "Test Steps:".

(** What follows the label: the content without its trailing white space
    on a line of its own, or nothing when the content is blank. *)
Definition embeddedContent (testContent : jsstring) : jsstring :=
  if isBlank testContent then [] else nl ++ trimEnd testContent.

(* ================================================================= *)
(** ** Values, completions and the state of a run *)

(** The values of type [any] that flow through the orchestrator: the
    agent's result and whatever a rejected promise carries.  [JError] is
    an instance of [Error] with its [message]. *)
Inductive JsValue : Type :=
| JUndefined
| JNull
| JBoolean (b : bool)
| JNumber (z : Z)
| JString (s : jsstring)
| JError (message : jsstring)
| JObject (props : list (jsstring * JsValue)).

(** How an awaited call settles, and how an expression completes. *)
Inductive Completion (A : Type) : Type :=
| Return (a : A)
| Throw (e : JsValue).
Arguments Return {A} a.
Arguments Throw {A} e.

(** An own property of an object. *)
Definition hasOwnProperty (props : list (jsstring * JsValue)) (key : jsstring)
  : bool :=
  existsb (fun p => eqb (fst p) key) props.

(** The [TypeError] raised when an object has no usable [toString] or
    [valueOf] (the message is the one of V8). *)
Definition cannotConvert : JsValue :=
  JError (str "Cannot convert object to primitive value").

(** [String(v)].  An object is converted through its [toString] method:
    the inherited one answers ["[object Object]"]; an own property of
    that name hides it, and as no value of [JsValue] is callable the own
    property is skipped, [valueOf] gives back the object or is skipped as
    well, and the conversion raises. *)
Definition toString (v : JsValue) : Completion jsstring :=
  match v with
  | JUndefined => Return (str "undefined")
  | JNull => Return (str "null")
  | JBoolean true => Return (str "true")
  | JBoolean false => Return (str "false")
  | JNumber z => Return (ofZ z)
  | JString s => Return s
  | JError [] => Return (str "Error")
  | JError message => Return (str "Error: " ++ message)
  | JObject props =>
      if hasOwnProperty props (str "toString")
      then Throw cannotConvert
      else Return (str "[object Object]")
  end.

(** [error instanceof Error ? error.message : String(error)], line 115. *)
Definition errorMessage (error : JsValue) : Completion jsstring :=
  match error with
  | JError message => Return message
  | _ => toString error
  end.

(** One call of [console.log] or [console.error] with its arguments. *)
Inductive ConsoleCall : Type :=
| console_log (args : list JsValue)
| console_error (args : list JsValue).

(** The collaborators of the class: [fs/promises], the clock behind
    [new Date().toISOString()], the [MCPAgent] and the [path] module. *)
Record Runtime : Type := {
  World : Type;
  fs_readdir : jsstring -> World -> Completion (list jsstring) * World;
  fs_readFile : jsstring -> World -> Completion jsstring * World;
  agent_run : jsstring -> World -> Completion JsValue * World;
  date_toISOString : World -> jsstring * World;
  path_join : jsstring -> jsstring -> jsstring;
  path_basename : jsstring -> jsstring
}.

(** The state of a run: the world of the collaborators, and the calls
    the class itself has made on [console] so far, in order.  What a
    collaborator prints of its own accord belongs to its world and is not
    listed here. *)
Record RunState (W : Type) : Type := {
  world : W;
  console : list ConsoleCall
}.

(** The [TestResult] interface, lines 6-13; [error] is optional. *)
Record TestResult : Type := {
  testFile : jsstring;
  testNumber : Z;
  prompt : jsstring;
  result : JsValue;
  success : bool;
  error : option jsstring
}.

(** The part of [TestAgentConfig] the class keeps; the other options only
    configure the agent, which is a collaborator here. *)
Record TestAgentConfig : Type := {
  config_testsDir : option jsstring
}.

Record TestAgent : Type := {
  testsDir : jsstring
}.

(** [config.testsDir || "./tests"], line 29: an absent or empty option
    selects the default. *)
Definition constructor (config : TestAgentConfig) : TestAgent :=
  {| testsDir :=
       match config_testsDir config with
       | None | Some [] => str "./tests"
       | Some dir => dir
       end |}.

(* ================================================================= *)
(** ** The monad of asynchronous methods *)

Module Async.

Definition Async (W A : Type) : Type :=
  RunState W -> Completion A * RunState W.

Definition ret {W A} (a : A) : Async W A :=
  fun s => (Return a, s).

Definition throw {W A} (e : JsValue) : Async W A :=
  fun s => (Throw e, s).

(** [await c] followed by the rest of the body. *)
Definition bind {W A B} (c : Async W A) (k : A -> Async W B) : Async W B :=
  fun s =>
    match c s with
    | (Return a, s') => k a s'
    | (Throw e, s') => (Throw e, s')
    end.

(** [try { body } catch (error) { handler }]. *)
Definition try_catch {W A} (body : Async W A) (handler : JsValue -> Async W A)
  : Async W A :=
  fun s =>
    match body s with
    | (Return a, s') => (Return a, s')
    | (Throw e, s') => handler e s'
    end.

(** An expression of the method itself that may raise. *)
Definition settle {W A} (c : Completion A) : Async W A :=
  fun s => (c, s).

(** A call into the outside world: it moves the world and settles; the
    class's own console calls are untouched by it. *)
Definition call {W A} (op : W -> Completion A * W) : Async W A :=
  fun s =>
    let (c, w') := op (world s) in
    (c, {| world := w'; console := console s |}).

(** A console call: appended to what was written so far. *)
Definition write {W} (entry : ConsoleCall) : Async W unit :=
  fun s => (Return tt, {| world := world s; console := console s ++ [entry] |}).

(** [array.forEach(f)]. *)
Fixpoint forEach {W A} (l : list A) (f : A -> Async W unit) : Async W unit :=
  match l with
  | [] => ret tt
  | a :: rest => bind (f a) (fun _ => forEach rest f)
  end.

End Async.
Import Async.

Notation "x <- c ;; k" := (bind c (fun x => k))
  (at level 61, c at next level, right associativity).
Notation "c ;; k" := (bind c (fun _ => k))
  (at level 61, right associativity).

(** [console.log(s)] with one string. *)
Definition log {W} (s : jsstring) : Async W unit :=
  write (console_log [JString s]).

(* ================================================================= *)
(** ** The default sort of an array of strings *)

(** [Array.prototype.sort] without a comparator orders strings by
    [JsString.compare] and is stable; embedded as an insertion sort. *)
Fixpoint insert (x : jsstring) (l : list jsstring) : list jsstring :=
  match l with
  | [] => [x]
  | y :: l' => if leb x y then x :: l else y :: insert x l'
  end.

Fixpoint sort (l : list jsstring) : list jsstring :=
  match l with
  | [] => []
  | x :: l' => insert x (sort l')
  end.

(** The order of that sort. *)
Definition sortsBefore (a b : jsstring) : Prop := leb a b = true.

(** The names of a listing that carry the extension, and the others. *)
Definition testNames (files : list jsstring) : list jsstring :=
  filter (fun file => endsWith file (str ".test")) files.

Definition otherNames (files : list jsstring) : list jsstring :=
  filter (fun file => negb (endsWith file (str ".test"))) files.

(* ================================================================= *)
(** ** The class [TestAgent] *)

Section TestAgentMethods.

Variable R : Runtime.
Variable this : TestAgent.

Local Abbreviation M := (Async (World R)).

(** The chain of lines 53-56 applied to the listing. *)
Definition selectTestFiles (files : list jsstring) : list jsstring :=
  map (fun file => path_join R (testsDir this) file)
      (sort (filter (fun file => endsWith file (str ".test")) files)).

(** Lines 51-57. *)
Definition getTestFiles : M (list jsstring) :=
  files <- call (fs_readdir R (testsDir this)) ;;
  ret (selectTestFiles files).

(** Lines 59-61. *)
Definition readTestContent (filePath : jsstring) : M jsstring :=
  call (fs_readFile R filePath).

(** Lines 63-81: the clock is read, then the template is filled in. *)
Definition buildTestPrompt (testContent : jsstring) : M jsstring :=
  currentDateTime <-
    call (fun w => let (t, w') := date_toISOString R w in (Return t, w')) ;;
  ret (buildTestPromptAt currentDateTime testContent).

Definition banner : jsstring := JsString.repeat (str "=") 60.

(** The [try] block of [runSingleTest], lines 92-106. *)
Definition runSingleTest_try (testFile : jsstring) (testNumber : Z)
  : M TestResult :=
  testContent <- readTestContent testFile ;;
  log (nl ++ str "Test Content:" ++ nl ++ testContent ++ nl) ;;
  prompt <- buildTestPrompt testContent ;;
  result <- call (agent_run R prompt) ;;
  write (console_log [JString (nl ++ str "Result:"); result]) ;;
  ret {| testFile := path_basename R testFile;
         testNumber := testNumber;
         prompt := testContent;
         result := result;
         success := true;
         error := None |}.

(** The [catch] block, lines 107-117.  The fields of the returned object
    are evaluated in order, so the message is built, and may raise, after
    [console.error] was called. *)
Definition runSingleTest_catch (testFile : jsstring) (testNumber : Z)
  (error : JsValue) : M TestResult :=
  write (console_error [JString (nl ++ str "Error running test:"); error]) ;;
  message <- settle (errorMessage error) ;;
  ret {| testFile := path_basename R testFile;
         testNumber := testNumber;
         prompt := [];
         result := JNull;
         success := false;
         error := Some message |}.

(** Lines 83-118. *)
Definition runSingleTest (testFile : jsstring) (testNumber : Z)
  : M TestResult :=
  log (nl ++ banner) ;;
  log (str "Running Test #" ++ ofZ testNumber ++ str ": "
       ++ path_basename R testFile) ;;
  log banner ;;
  try_catch (runSingleTest_try testFile testNumber)
            (runSingleTest_catch testFile testNumber).

(** The [for] loop of lines 129-132: [remaining] is [testFiles] from
    index [i] on, [results] the array filled so far. *)
Fixpoint runAllTests_loop (remaining : list jsstring) (i : nat)
  (results : list TestResult) : M (list TestResult) :=
  match remaining with
  | [] => ret results
  | file :: rest =>
      result <- runSingleTest file (Z.of_nat i + 1) ;;
      runAllTests_loop rest (S i) (results ++ [result])
  end.

(** Lines 120-135. *)
Definition runAllTests : M (list TestResult) :=
  testFiles <- getTestFiles ;;
  log (nl ++ str "Found " ++ ofZ (Z.of_nat (List.length testFiles))
       ++ str " test file(s):" ++ nl
       ++ join nl (map (fun f => str "  - " ++ path_basename R f) testFiles)) ;;
  runAllTests_loop testFiles 0 [].

(** The two status labels of line 143: U+2705 and U+274C, then the word. *)
Definition PASSED : jsstring := 9989%N :: str " PASSED".
Definition FAILED : jsstring := 10060%N :: str " FAILED".

(** [if (r.error)]: an absent or empty message is falsy. *)
Definition truthy (error : option jsstring) : bool :=
  match error with
  | None | Some [] => false
  | Some _ => true
  end.

(** The callback of [results.forEach], lines 142-148. *)
Definition printSummary_each (r : TestResult) : M unit :=
  let status := if success r then PASSED else FAILED in
  log (status ++ str " - Test #" ++ ofZ (testNumber r) ++ str ": "
       ++ testFile r) ;;
  if truthy (error r)
  then log (str "  Error: " ++ match error r with Some e => e | None => [] end)
  else ret tt.

(** Lines 137-156. *)
Definition printSummary (results : list TestResult) : M unit :=
  log (nl ++ banner) ;;
  log (str "TEST SUMMARY") ;;
  log banner ;;
  forEach results printSummary_each ;;
  let passed := List.length (filter success results) in
  log (nl ++ str "Total: " ++ ofZ (Z.of_nat (List.length results))
       ++ str " | Passed: " ++ ofZ (Z.of_nat passed)
       ++ str " | Failed: "
       ++ ofZ (Z.of_nat (List.length results) - Z.of_nat passed)).

End TestAgentMethods.

(* ================================================================= *)
(** ** What the collaborators answer during a run *)

(** The answers the collaborators give while one test is processed: the
    read raised, or the file was read, the prompt built and the agent
    raised or returned. *)
Inductive Attempt : Type :=
| ReadRaised (e : JsValue)
| GatewayRaised (testContent sentPrompt : jsstring) (e : JsValue)
| Completed (testContent sentPrompt : jsstring) (result : JsValue).

Definition readRaised (a : Attempt) : bool :=
  match a with ReadRaised _ => true | _ => false end.

Definition gatewayRaised (a : Attempt) : bool :=
  match a with GatewayRaised _ _ _ => true | _ => false end.

Definition completed (a : Attempt) : bool :=
  match a with Completed _ _ _ => true | _ => false end.

(** The value raised during the attempt, if any. *)
Definition raisedValue (a : Attempt) : option JsValue :=
  match a with
  | ReadRaised e | GatewayRaised _ _ e => Some e
  | Completed _ _ _ => None
  end.

(** How a result records an attempt: the shapes of lines 100-106 and
    109-116. *)
Definition Records (a : Attempt) (r : TestResult) : Prop :=
  match a with
  | Completed testContent _ v =>
      success r = true /\ prompt r = testContent /\ result r = v /\
      error r = None
  | ReadRaised e | GatewayRaised _ _ e =>
      success r = false /\ prompt r = [] /\ result r = JNull /\
      exists message, errorMessage e = Return message /\
                      error r = Some message
  end.

(** What leaves the [catch] block: what line 115 raises when it cannot
    build the message of the raised value. *)
Definition escapes (a : Attempt) : option JsValue :=
  match raisedValue a with
  | Some e =>
      match errorMessage e with
      | Throw t => Some t
      | Return _ => None
      end
  | None => None
  end.

(** The first attempt of a run that leaves its [catch] block, if any. *)
Fixpoint firstEscape (attempted : list Attempt) : option JsValue :=
  match attempted with
  | [] => None
  | a :: rest =>
      match escapes a with
      | Some t => Some t
      | None => firstEscape rest
      end
  end.

(** The raised value, if any, is an [Error] or a value [String] converts:
    anything but an object with an own [toString] property. *)
Definition describable (a : Attempt) : bool :=
  match raisedValue a with
  | Some (JObject props) => negb (hasOwnProperty props (str "toString"))
  | _ => true
  end.

(** The message of a raised value in the words of the specification:
    [error.message] for an [Error], [String(error)] otherwise. *)
Definition MessageOf (e : JsValue) (message : jsstring) : Prop :=
  match e with
  | JError m => message = m
  | _ => toString e = Return message
  end.

(** The [error] field a result should carry for an attempt. *)
Definition ReportsFailure (a : Attempt) (r : TestResult) : Prop :=
  match raisedValue a with
  | Some e => exists message, MessageOf e message /\ error r = Some message
  | None => error r = None
  end.

Section Attempts.

Variable R : Runtime.

(** The calls of one test against the world, in the order of the [try]
    block: [fs.readFile], the clock, [agent.run]. *)
Definition attempt (testFile : jsstring) (w : World R) : Attempt * World R :=
  match fs_readFile R testFile w with
  | (Throw e, w1) => (ReadRaised e, w1)
  | (Return testContent, w1) =>
      let (currentDateTime, w2) := date_toISOString R w1 in
      let sent := buildTestPromptAt currentDateTime testContent in
      match agent_run R sent w2 with
      | (Throw e, w3) => (GatewayRaised testContent sent e, w3)
      | (Return v, w3) => (Completed testContent sent v, w3)
      end
  end.

(** The same for the files of a run, one after the other. *)
Fixpoint attempts (testFiles : list jsstring) (w : World R) : list Attempt :=
  match testFiles with
  | [] => []
  | file :: rest =>
      let (a, w') := attempt file w in a :: attempts rest w'
  end.

Fixpoint worldAfter (testFiles : list jsstring) (w : World R) : World R :=
  match testFiles with
  | [] => w
  | file :: rest => worldAfter rest (snd (attempt file w))
  end.

End Attempts.

(* ================================================================= *)
(** ** The text of the report *)

Section Report.

(** The line of one result, and its error line. *)
Definition statusLine (r : TestResult) : jsstring :=
  (if success r then PASSED else FAILED)
  ++ str " - Test #" ++ ofZ (testNumber r) ++ str ": " ++ testFile r.

Definition errorLine (message : jsstring) : jsstring :=
  str "  Error: " ++ message.

(** The error message a result carries, when it is not empty. *)
Definition shownError (r : TestResult) : option jsstring :=
  match error r with
  | Some (c :: message) => Some (c :: message)
  | _ => None
  end.

Definition resultLines (r : TestResult) : list jsstring :=
  statusLine r ::
  match shownError r with
  | Some message => [errorLine message]
  | None => []
  end.

Definition passedCount (results : list TestResult) : nat :=
  count_occ bool_dec (map success results) true.

Definition failedCount (results : list TestResult) : nat :=
  count_occ bool_dec (map success results) false.

Definition tallyLine (total passed failed : nat) : jsstring :=
  nl ++ str "Total: " ++ ofZ (Z.of_nat total)
  ++ str " | Passed: " ++ ofZ (Z.of_nat passed)
  ++ str " | Failed: " ++ ofZ (Z.of_nat failed).

Definition summaryHeader : list jsstring :=
  [nl ++ banner; str "TEST SUMMARY"; banner].

(** The console calls that print the given lines. *)
Definition printed (lines : list jsstring) : list ConsoleCall :=
  map (fun line => console_log [JString line]) lines.

End Report.

(* ================================================================= *)
(** ** A scripted runtime for concrete runs *)

Module Demo.

(** The last segment of a slash-separated path. *)
Definition basename (p : jsstring) : jsstring :=
  fold_left (fun acc c => if (c =? 47)%N then [] else acc ++ [c]) p [].

Definition join (dir file : jsstring) : jsstring :=
  dir ++ str "/" ++ file.

(** What the directory lists, what each file holds, what the agent
    answers to a prompt, and the time on the clock. *)
Record Script : Type := {
  listing : Completion (list jsstring);
  contents : list (jsstring * Completion jsstring);
  gateway : jsstring -> Completion JsValue;
  clock : jsstring
}.

Definition readScripted (sc : Script) (path : jsstring) : Completion jsstring :=
  match find (fun entry => eqb (fst entry) (basename path)) (contents sc) with
  | Some (_, c) => c
  | None => Throw (JError (str "ENOENT: no such file or directory"))
  end.

(** The world is the list of prompts the agent has received. *)
Definition runtime (sc : Script) : Runtime :=
  {| World := list jsstring;
     fs_readdir := fun _ w => (listing sc, w);
     fs_readFile := fun path w => (readScripted sc path, w);
     agent_run := fun sent w => (gateway sc sent, w ++ [sent]);
     date_toISOString := fun w => (clock sc, w);
     path_join := join;
     path_basename := basename |}.

Definition agent : TestAgent :=
  constructor {| config_testsDir := Some (str "tests") |}.

Definition start : RunState (list jsstring) :=
  {| world := []; console := [] |}.

Definition ok : JsValue := JObject [(str "ok", JBoolean true)].

(** The two-file directory of the specification's scenario, listed out
    of order and next to a file that is not a test. *)
Definition twoTests : Script :=
  {| listing := Return [str "2.test"; str "notes.txt"; str "1.test"];
     contents := [(str "1.test", Return (str "open example.com"));
                  (str "2.test", Return (str "open other.com"))];
     gateway := fun _ => Return ok;
     clock := sampleTime |}.

(** The same directory with an agent that fails on the second test. *)
Definition secondFails : Script :=
  {| listing := listing twoTests;
     contents := contents twoTests;
     gateway := fun sent =>
       if includes sent (str "other.com")
       then Throw (JError (str "navigation timeout"))
       else Return ok;
     clock := sampleTime |}.

(** An agent that rejects with [new Error()], whose message is empty. *)
Definition silentFailure : Script :=
  {| listing := Return [str "1.test"];
     contents := [(str "1.test", Return (str "open example.com"))];
     gateway := fun _ => Throw (JError []);
     clock := sampleTime |}.

(** A tests directory that does not exist. *)
Definition missingDirectory : Script :=
  {| listing := Throw (JError (str "ENOENT: no such file or directory, scandir 'tests'"));
     contents := [];
     gateway := fun _ => Return ok;
     clock := sampleTime |}.

(** A test file that ends with a line feed, as editors write them. *)
Definition withNewline : jsstring := str "open example.com" ++ nl.

End Demo.

(* ================================================================= *)
(** ** The constructor and the entry point *)

(** One entry of [mcpServers]: the command that launches a tool provider. *)
Record ServerCommand : Type := {
  command : jsstring;
  args : list jsstring
}.

(** The whole [TestAgentConfig], lines 15-22.  [apiKey] is typed as a
    string but comes from [process.env.API_KEY!], which may be undefined. *)
Record Config : Type := {
  modelName : option jsstring;
  apiKey : option jsstring;
  baseURL : option jsstring;
  testsDirOption : option jsstring;
  maxSteps : option Z;
  mcpServers : option (list (jsstring * ServerCommand))
}.

(** The fields handed to [new ChatOpenAI], lines 38-42. *)
Record ChatOpenAIFields : Type := {
  llm_model : jsstring;
  llm_apiKey : option jsstring;
  llm_baseURL : option jsstring
}.

(** A runtime together with the three constructors of the libraries,
    each of which may raise. *)
Record Host : Type := {
  host_runtime : Runtime;
  MCPClient_fromDict :
    list (jsstring * ServerCommand) ->
    World host_runtime -> Completion unit * World host_runtime;
  ChatOpenAI_new :
    ChatOpenAIFields ->
    World host_runtime -> Completion unit * World host_runtime;
  MCPAgent_new :
    Z -> World host_runtime -> Completion unit * World host_runtime
}.

(** [config.mcpServers || { playwright: ... }], lines 32-34: any object,
    the empty one included, is kept. *)
Definition serversOrDefault (servers : option (list (jsstring * ServerCommand)))
  : list (jsstring * ServerCommand) :=
  match servers with
  | Some given => given
  | None => [(str "playwright",
              {| command := str "npx";
                 args := [str "@playwright/mcp@latest"] |})]
  end.

(** [config.modelName || "gpt-4o"], line 39. *)
Definition modelOrDefault (model : option jsstring) : jsstring :=
  match model with
  | None | Some [] => str "gpt-4o"
  | Some given => given
  end.

(** [config.maxSteps || 20], line 47: zero is falsy. *)
Definition maxStepsOrDefault (steps : option Z) : Z :=
  match steps with
  | None | Some 0%Z => 20%Z
  | Some given => given
  end.

(** [new TestAgent(config)], lines 28-49. *)
Definition newTestAgent (H : Host) (config : Config)
  : Async (World (host_runtime H)) TestAgent :=
  let this := constructor {| config_testsDir := testsDirOption config |} in
  call (MCPClient_fromDict H (serversOrDefault (mcpServers config))) ;;
  call (ChatOpenAI_new H {| llm_model := modelOrDefault (modelName config);
                            llm_apiKey := apiKey config;
                            llm_baseURL := baseURL config |}) ;;
  call (MCPAgent_new H (maxStepsOrDefault (maxSteps config))) ;;
  ret this.

(** The variables [index.ts] reads from [process.env]. *)
Record Env : Type := {
  MODEL_NAME : option jsstring;
  API_KEY : option jsstring;
  BASE_URL : option jsstring;
  TESTS_DIR : option jsstring
}.

(** The configuration [main] builds, [index.ts] lines 7-13. *)
Definition configOfEnv (env : Env) : Config :=
  {| modelName := MODEL_NAME env;
     apiKey := API_KEY env;
     baseURL := BASE_URL env;
     testsDirOption := TESTS_DIR env;
     maxSteps := Some 20%Z;
     mcpServers := None |}.

(** [main], [index.ts] lines 4-17. *)
Definition main (H : Host) (env : Env) : Async (World (host_runtime H)) unit :=
  log (str "Using tests directory: "
       ++ match TESTS_DIR env with
          | None | Some [] => str "./tests"
          | Some dir => dir
          end) ;;
  testAgent <- newTestAgent H (configOfEnv env) ;;
  results <- runAllTests (host_runtime H) testAgent ;;
  printSummary (host_runtime H) results.

(** [main().catch(console.error)], [index.ts] line 19. *)
Definition index (H : Host) (env : Env) : Async (World (host_runtime H)) unit :=
  try_catch (main H env) (fun e => write (console_error [e])).

(** The line [main] starts with, in terms of the constructor's default. *)
Definition announcement (env : Env) : ConsoleCall :=
  console_log
    [JString (str "Using tests directory: "
              ++ testsDir (constructor {| config_testsDir := TESTS_DIR env |}))].

(* ================================================================= *)
(** ** What a single test writes to the console *)

Section SingleTestLog.

Variable R : Runtime.

(** The console calls of [runSingleTest], by what the attempt did. *)
Definition singleTestLog (testFile : jsstring) (testNumber : Z) (a : Attempt)
  : list ConsoleCall :=
  [console_log [JString (nl ++ banner)];
   console_log [JString (str "Running Test #" ++ ofZ testNumber ++ str ": "
                         ++ path_basename R testFile)];
   console_log [JString banner]]
  ++ match a with
     | ReadRaised e =>
         [console_error [JString (nl ++ str "Error running test:"); e]]
     | GatewayRaised testContent _ e =>
         [console_log [JString (nl ++ str "Test Content:" ++ nl
                                ++ testContent ++ nl)];
          console_error [JString (nl ++ str "Error running test:"); e]]
     | Completed testContent _ v =>
         [console_log [JString (nl ++ str "Test Content:" ++ nl
                                ++ testContent ++ nl)];
          console_log [JString (nl ++ str "Result:"); v]]
     end.

(** The line that announces the files found, line 122. *)
Definition foundLine (files : list jsstring) : ConsoleCall :=
  console_log
    [JString (nl ++ str "Found " ++ ofZ (Z.of_nat (List.length files))
              ++ str " test file(s):" ++ nl
              ++ join nl (map (fun f => str "  - " ++ path_basename R f) files))].

End SingleTestLog.

(** The number of [console.error] calls among the calls the class made. *)
Definition ownErrorCalls (calls : list ConsoleCall) : nat :=
  List.length (filter (fun c => match c with
                                | console_error _ => true
                                | console_log _ => false
                                end) calls).

(** Two results that agree on what the report shows. *)
Definition sameReportFields (r1 r2 : TestResult) : Prop :=
  testFile r1 = testFile r2 /\ testNumber r1 = testNumber r2 /\
  success r1 = success r2 /\ error r1 = error r2.

Module DemoHost.

(** The scripted runtime with constructors that succeed, or with a
    [ChatOpenAI] that rejects a missing key. *)
Definition host (sc : Demo.Script) : Host :=
  {| host_runtime := Demo.runtime sc;
     MCPClient_fromDict := fun _ w => (Return tt, w);
     ChatOpenAI_new := fun fields w =>
       (match llm_apiKey fields with
        | Some _ => Return tt
        | None => Throw (JError (str "OpenAI API key not found"))
        end, w);
     MCPAgent_new := fun _ w => (Return tt, w) |}.

Definition env : Env :=
  {| MODEL_NAME := None;
     API_KEY := Some (str "sk-test");
     BASE_URL := None;
     TESTS_DIR := Some (str "tests") |}.

(** A listed file that is gone when it is read. *)
Definition vanished : Demo.Script :=
  {| Demo.listing := Return [str "1.test"; str "2.test"; str "3.test"];
     Demo.contents := [(str "1.test", Return (str "open example.com"));
                       (str "3.test", Return (str "open other.com"))];
     Demo.gateway := fun _ => Return Demo.ok;
     Demo.clock := sampleTime |}.

(** A directory whose only test file is empty. *)
Definition emptyTest : Demo.Script :=
  {| Demo.listing := Return [str "1.test"];
     Demo.contents := [(str "1.test", Return [])];
     Demo.gateway := fun _ => Return Demo.ok;
     Demo.clock := sampleTime |}.

(** A value [String] cannot convert: [{ toString: 1 }]. *)
Definition unconvertible : JsValue := JObject [(str "toString", JNumber 1)].

(** Two files and an agent that rejects with that value. *)
Definition rejectsWithObject : Demo.Script :=
  {| Demo.listing := Return [str "1.test"; str "2.test"];
     Demo.contents := [(str "1.test", Return (str "open example.com"));
                       (str "2.test", Return (str "open other.com"))];
     Demo.gateway := fun _ => Throw unconvertible;
     Demo.clock := sampleTime |}.

(** Three files; the agent answers the first, rejects the second with an
    [Error] and the third with a plain string. *)
Definition mixedFailures : Demo.Script :=
  {| Demo.listing := Return [str "1.test"; str "2.test"; str "3.test"];
     Demo.contents := [(str "1.test", Return (str "open example.com"));
                       (str "2.test", Return (str "open other.com"));
                       (str "3.test", Return (str "open third.com"))];
     Demo.gateway := fun sent =>
       if includes sent (str "example.com") then Return Demo.ok
       else if includes sent (str "other.com")
            then Throw (JError (str "navigation timeout"))
            else Throw (JString (str "quota exceeded"));
     Demo.clock := sampleTime |}.

(** Three files; the second is gone when it is read, and the agent
    rejects the third with a plain string. *)
Definition vanishedAndRejected : Demo.Script :=
  {| Demo.listing := Return [str "1.test"; str "2.test"; str "3.test"];
     Demo.contents := [(str "1.test", Return (str "open example.com"));
                       (str "3.test", Return (str "open other.com"))];
     Demo.gateway := fun sent =>
       if includes sent (str "other.com")
       then Throw (JString (str "quota exceeded"))
       else Return Demo.ok;
     Demo.clock := sampleTime |}.

(** A directory without test files. *)
Definition noTests : Demo.Script :=
  {| Demo.listing := Return [str "notes.txt"; str "README.md"];
     Demo.contents := [];
     Demo.gateway := fun _ => Return Demo.ok;
     Demo.clock := sampleTime |}.

End DemoHost.

(** Unfolds a method down to the calls on the world and the console. *)
Ltac run_async :=
  unfold runSingleTest, runSingleTest_try, runSingleTest_catch,
    readTestContent, buildTestPrompt, log, write, bind, try_catch, call,
    settle, ret;
  simpl.

(* ================================================================= *)
(** * Properties *)

(* ----------------------------------------------------------------- *)
(** ** Strings: trimming and substrings *)

Section StringFacts.

Lemma trimStart_blank s : isBlank s = true -> trimStart s = [].
Proof.
  induction s as [|c s IH]; simpl; [reflexivity|].
  intros H. apply andb_true_iff in H as [Hc Hs]. rewrite Hc. auto.
Qed.

Lemma trimStart_app_blank ws s : isBlank ws = true -> trimStart (ws ++ s) = trimStart s.
Proof.
  induction ws as [|c ws IH]; simpl; [reflexivity|].
  intros H. apply andb_true_iff in H as [Hc Hs]. rewrite Hc. auto.
Qed.

Lemma trimStart_app_ink s s' :
  isBlank s = false -> trimStart (s ++ s') = trimStart s ++ s'.
Proof.
  induction s as [|c s IH]; simpl; [discriminate|].
  destruct (isWhiteSpace c); simpl; auto.
Qed.

Lemma trimStart_head s c rest : trimStart s = c :: rest -> isWhiteSpace c = false.
Proof.
  induction s as [|d s IH]; simpl; [discriminate|].
  destruct (isWhiteSpace d) eqn:Hd; auto.
  intros [= <- _]. exact Hd.
Qed.

(** What [trimStart] drops is white space. *)
Lemma trimStart_split s : exists ws, isBlank ws = true /\ s = ws ++ trimStart s.
Proof.
  induction s as [|c s [ws [Hws Hs]]]; simpl.
  - exists []. auto.
  - destruct (isWhiteSpace c) eqn:Hc.
    + exists (c :: ws). simpl. rewrite Hc, Hws. split; [reflexivity|congruence].
    + exists []. auto.
Qed.

Lemma isBlank_rev s : isBlank (rev s) = isBlank s.
Proof.
  unfold isBlank. induction s as [|c s IH]; simpl; [reflexivity|].
  rewrite forallb_app, IH. simpl. rewrite andb_true_r. apply andb_comm.
Qed.

Lemma trimEnd_blank s : isBlank s = true -> trimEnd s = [].
Proof.
  intros H. unfold trimEnd. rewrite trimStart_blank; [reflexivity|].
  now rewrite isBlank_rev.
Qed.

Lemma trimEnd_app_blank s ws : isBlank ws = true -> trimEnd (s ++ ws) = trimEnd s.
Proof.
  intros H. unfold trimEnd. rewrite rev_app_distr, trimStart_app_blank; [reflexivity|].
  now rewrite isBlank_rev.
Qed.

Lemma trimEnd_app_ink s s' :
  isBlank s' = false -> trimEnd (s ++ s') = s ++ trimEnd s'.
Proof.
  intros H. unfold trimEnd.
  rewrite rev_app_distr, trimStart_app_ink by now rewrite isBlank_rev.
  now rewrite rev_app_distr, rev_involutive.
Qed.

Lemma trimEnd_last s init c : trimEnd s = init ++ [c] -> isWhiteSpace c = false.
Proof.
  unfold trimEnd. intros H.
  apply (f_equal (@rev N)) in H. rewrite rev_involutive, rev_app_distr in H.
  simpl in H. eapply trimStart_head; eauto.
Qed.

Lemma trimEnd_split s : exists ws, isBlank ws = true /\ s = trimEnd s ++ ws.
Proof.
  destruct (trimStart_split (rev s)) as [ws [Hws Hs]].
  exists (rev ws). split; [now rewrite isBlank_rev|].
  unfold trimEnd. rewrite <- rev_app_distr, <- Hs. now rewrite rev_involutive.
Qed.

(** [trim] leaves no white space at either end, whatever its argument. *)
Lemma trim_Trimmed s : Trimmed (trim s).
Proof.
  unfold trim. split.
  - intros c rest H.
    destruct (trimStart s) as [|d r] eqn:Hts.
    + discriminate H.
    + pose proof (trimStart_head _ Hts) as Hd.
      destruct (trimEnd_split (d :: r)) as [ws [Hws Heq]].
      rewrite H in Heq. simpl in Heq. injection Heq as -> _. exact Hd.
  - intros init c H. eapply trimEnd_last; eauto.
Qed.

Lemma startsWith_app p post : startsWith (p ++ post) p = true.
Proof.
  induction p as [|a p IH]; simpl; [reflexivity|].
  now rewrite N.eqb_refl.
Qed.

(** [includes] decides [Substring] in the direction the examples need. *)
Lemma Substring_includes t s : Substring t s -> includes s t = true.
Proof.
  intros (pre & post & ->).
  induction pre as [|a pre IH]; simpl.
  - assert (H : forall s, startsWith s t = true -> includes s t = true).
    { intros [|c s] Hs; simpl; rewrite Hs; reflexivity. }
    apply H, startsWith_app.
  - rewrite IH. apply orb_true_r.
Qed.

Lemma startsWith_split p : forall s, startsWith s p = true -> exists post, s = p ++ post.
Proof.
  induction p as [|a p IH]; intros s H; simpl in H.
  - exists s. reflexivity.
  - destruct s as [|b s]; [discriminate|].
    apply andb_true_iff in H as [Hab Hs]. apply N.eqb_eq in Hab as ->.
    destruct (IH _ Hs) as [post ->]. exists post. reflexivity.
Qed.

Lemma includes_Substring t s : includes s t = true -> Substring t s.
Proof.
  induction s as [|c s IH]; simpl; intros H.
  - rewrite orb_false_r in H. apply startsWith_split in H as [post ->].
    exists [], post. reflexivity.
  - apply orb_true_iff in H as [H|H].
    + apply startsWith_split in H as [post ->]. exists [], post. reflexivity.
    + destruct (IH H) as (pre & post & ->). exists (c :: pre), post. reflexivity.
Qed.

Lemma Substring_suffix pre t : Substring t (pre ++ t).
Proof. exists pre, []. now rewrite app_nil_r. Qed.

Lemma Substring_nil s : Substring [] s.
Proof. exists [], s. reflexivity. Qed.

End StringFacts.

(* ----------------------------------------------------------------- *)
(** ** The prompt builder *)

Section PromptBuilder.

Example buildTestPromptAt_empty :
  buildTestPromptAt sampleTime [] =
  str "Current Date/Time: 2026-01-01T00:00:00.000Z" ++ nl ++ nl ++
  str "Instructions:" ++ nl ++
  str "- Follow the test steps below carefully" ++ nl ++
  str "- Return your response in JSON format with the following structure:" ++ nl ++
  str "  {" ++ nl ++
  str "    " ++ dq ++ str "success" ++ dq ++ str ": boolean," ++ nl ++
  str "    " ++ dq ++ str "steps_completed" ++ dq ++ str ": string[]," ++ nl ++
  str "    " ++ dq ++ str "observations" ++ dq ++ str ": string," ++ nl ++
  str "    " ++ dq ++ str "final_status" ++ dq ++ str ": string" ++ nl ++
  str "  }" ++ nl ++ nl ++
  str "Test Steps:".
Proof. vm_compute. reflexivity. Qed.

Lemma promptTemplate_parts t C :
  promptTemplate t C = nl ++ promptHeader t ++ instructionBlock ++ nl ++ C ++ nl.
Proof.
  unfold promptTemplate, promptHeader, instructionBlock.
  rewrite <- !app_assoc. reflexivity.
Qed.

Lemma trimEnd_tail C : trimEnd (instructionBlock ++ nl ++ C ++ nl)
                       = instructionBlock ++ embeddedContent C.
Proof.
  unfold embeddedContent.
  replace (instructionBlock ++ nl ++ C ++ nl)
    with ((instructionBlock ++ nl ++ C) ++ nl) by now rewrite <- !app_assoc.
  rewrite trimEnd_app_blank by reflexivity.
  destruct (isBlank C) eqn:HC.
  - rewrite app_assoc, trimEnd_app_blank by exact HC.
    vm_compute. reflexivity.
  - rewrite app_assoc, trimEnd_app_ink by exact HC.
    now rewrite <- app_assoc.
Qed.

(** The prompt, part by part. *)
Lemma buildTestPromptAt_parts t C :
  buildTestPromptAt t C = promptHeader t ++ instructionBlock ++ embeddedContent C.
Proof.
  unfold buildTestPromptAt, trim. rewrite promptTemplate_parts.
  change (trimStart (nl ++ promptHeader t ++ instructionBlock ++ nl ++ C ++ nl))
    with (promptHeader t ++ instructionBlock ++ nl ++ C ++ nl).
  rewrite trimEnd_app_ink.
  - now rewrite trimEnd_tail.
  - unfold isBlank. rewrite forallb_app. reflexivity.
Qed.

Variable R : Runtime.

(** The method reads the clock once and never raises. *)
Lemma buildTestPrompt_run C (s : RunState (World R)) :
  buildTestPrompt R C s
  = (Return (buildTestPromptAt (fst (date_toISOString R (world s))) C),
     {| world := snd (date_toISOString R (world s)); console := console s |}).
Proof.
  unfold buildTestPrompt, bind, call, ret.
  destruct (date_toISOString R (world s)) as [t w']. reflexivity.
Qed.

(** C4, as stated, fails on a test file that ends with a line feed: the
    final [trim] removes it, so the prompt no longer holds the content
    verbatim. *)
Lemma buildTestPrompt_drops_trailing_newline :
  exists sent,
    fst (buildTestPrompt (Demo.runtime Demo.twoTests) Demo.withNewline Demo.start)
      = Return sent /\
    ~ Substring Demo.withNewline sent.
Proof.
  eexists. split; [reflexivity|].
  intros H. apply Substring_includes in H. vm_compute in H. discriminate H.
Qed.

(** C4 (amended): for every content, the empty one included, the prompt
    has no leading and no trailing white space and contains the content
    with its trailing white space removed, verbatim. *)
Theorem buildTestPrompt_trimmed_and_embeds C (s : RunState (World R)) :
  exists sent,
    fst (buildTestPrompt R C s) = Return sent /\
    Trimmed sent /\
    Substring (trimEnd C) sent.
Proof.
  rewrite buildTestPrompt_run. simpl.
  eexists. split; [reflexivity|]. split.
  - apply trim_Trimmed.
  - rewrite buildTestPromptAt_parts. unfold embeddedContent.
    destruct (isBlank C) eqn:HC.
    + rewrite trimEnd_blank by exact HC. apply Substring_nil.
    + rewrite !app_assoc. apply Substring_suffix.
Qed.

(** C5: built for the same content at two instants, the two prompts are
    the header with the respective timestamp followed by the same text:
    the fixed instruction block, which names the four fields and ends
    with the label of the test steps, and the embedded content. *)
Theorem buildTestPrompt_differs_only_in_timestamp C (s1 s2 : RunState (World R)) :
  fst (buildTestPrompt R C s1)
    = Return (promptHeader (fst (date_toISOString R (world s1)))
              ++ instructionBlock ++ embeddedContent C) /\
  fst (buildTestPrompt R C s2)
    = Return (promptHeader (fst (date_toISOString R (world s2)))
              ++ instructionBlock ++ embeddedContent C) /\
  Forall (fun field => Substring (dq ++ field ++ dq) instructionBlock)
         [str "success"; str "steps_completed"; str "observations";
          str "final_status"] /\
  endsWith instructionBlock (str "Test Steps:") = true.
Proof.
  rewrite !buildTestPrompt_run. simpl. rewrite !buildTestPromptAt_parts.
  repeat split.
  repeat constructor; apply includes_Substring; vm_compute; reflexivity.
Qed.

End PromptBuilder.

(* ----------------------------------------------------------------- *)
(** ** The loader *)

Section Loader.

Lemma compare_eq a : forall b, compare a b = Eq -> a = b.
Proof.
  induction a as [|x a IH]; intros [|y b]; simpl; try discriminate; auto.
  destruct (N.compare_spec x y) as [->| |]; try discriminate.
  intros H. f_equal. auto.
Qed.

Lemma compare_antisym a : forall b, compare b a = CompOpp (compare a b).
Proof.
  induction a as [|x a IH]; intros [|y b]; simpl; auto.
  rewrite (N.compare_antisym x y).
  destruct (x ?= y)%N; simpl; auto.
Qed.

Lemma le_total a b : sortsBefore a b \/ sortsBefore b a.
Proof.
  unfold sortsBefore, leb. rewrite (compare_antisym a b).
  destruct (compare a b); simpl; auto.
Qed.

Lemma le_antisym a b : sortsBefore a b -> sortsBefore b a -> a = b.
Proof.
  unfold sortsBefore, leb. rewrite (compare_antisym a b).
  destruct (compare a b) eqn:E; simpl; try discriminate.
  intros _ _. now apply compare_eq.
Qed.

Lemma le_trans a : forall b c, sortsBefore a b -> sortsBefore b c -> sortsBefore a c.
Proof.
  unfold sortsBefore, leb.
  induction a as [|x a IH]; intros [|y b] [|z c]; simpl; auto; try discriminate.
  destruct (N.compare_spec x y) as [->|Hxy|Hxy]; try discriminate.
  - destruct (N.compare_spec y z) as [->|Hyz|Hyz];
      [apply IH | auto | discriminate].
  - destruct (N.compare_spec y z) as [->|Hyz|Hyz]; try discriminate; intros _ _.
    + destruct (N.compare_spec x z); auto; lia.
    + destruct (N.compare_spec x z); auto; lia.
Qed.

Lemma insert_perm x l : Permutation (insert x l) (x :: l).
Proof.
  induction l as [|y l IH]; simpl; auto.
  destruct (leb x y); auto.
  rewrite IH. apply perm_swap.
Qed.

Lemma sort_perm l : Permutation (sort l) l.
Proof.
  induction l as [|x l IH]; simpl; auto.
  rewrite insert_perm. auto.
Qed.

Lemma insert_sorted x l : StronglySorted sortsBefore l -> StronglySorted sortsBefore (insert x l).
Proof.
  induction 1 as [|y l Hs IH Hy]; simpl.
  - repeat constructor.
  - destruct (leb x y) eqn:E.
    + constructor; [now constructor|].
      constructor; [exact E|].
      eapply Forall_impl; [|exact Hy]. intros z Hz. eapply le_trans; eauto.
    + constructor; [exact IH|].
      assert (Hyx : sortsBefore y x).
      { destruct (le_total x y) as [H|H]; [unfold sortsBefore in H; congruence|exact H]. }
      eapply Permutation_Forall; [symmetry; apply insert_perm|].
      constructor; auto.
Qed.

Lemma sort_sorted l : StronglySorted sortsBefore (sort l).
Proof.
  induction l as [|x l IH]; simpl; [constructor|]. now apply insert_sorted.
Qed.

(** A list has one sorted arrangement. *)
Lemma sorted_unique l1 :
  forall l2, StronglySorted sortsBefore l1 -> StronglySorted sortsBefore l2 ->
             Permutation l1 l2 -> l1 = l2.
Proof.
  induction l1 as [|x l1 IH]; intros l2 H1 H2 HP.
  - apply Permutation_nil in HP. now subst.
  - destruct l2 as [|y l2].
    + symmetry in HP. apply Permutation_nil in HP. discriminate.
    + inversion H1 as [|? ? Hs1 Hx]; subst. inversion H2 as [|? ? Hs2 Hy]; subst.
      assert (x = y) as <-.
      { assert (Hin1 : In x (y :: l2)) by (eapply Permutation_in; [exact HP|now left]).
        assert (Hin2 : In y (x :: l1))
          by (eapply Permutation_in; [symmetry; exact HP|now left]).
        rewrite Forall_forall in Hx, Hy.
        destruct Hin1 as [->|Hin1]; [reflexivity|].
        destruct Hin2 as [->|Hin2]; [reflexivity|].
        apply le_antisym; auto. }
      f_equal. apply IH; auto. eapply Permutation_cons_inv; eauto.
Qed.

Lemma sort_order_independent l1 l2 : Permutation l1 l2 -> sort l1 = sort l2.
Proof.
  intros HP. apply sorted_unique; try apply sort_sorted.
  rewrite !sort_perm. exact HP.
Qed.

Lemma filter_perm {A} (f : A -> bool) l1 l2 :
  Permutation l1 l2 -> Permutation (filter f l1) (filter f l2).
Proof.
  induction 1; simpl; auto.
  - destruct (f x); auto.
  - destruct (f x), (f y); auto. apply perm_swap.
  - etransitivity; eauto.
Qed.

Lemma filter_split_length {A} (f : A -> bool) l :
  List.length (filter f l) + List.length (filter (fun a => negb (f a)) l)
  = List.length l.
Proof.
  induction l as [|a l IH]; simpl; auto.
  destruct (f a); simpl; lia.
Qed.

Variable R : Runtime.
Variable this : TestAgent.

(** C6: when the directory lists [files], [getTestFiles] returns one path
    per file name with the extension: as many paths as there are such
    names, each the directory joined with a name, the names in
    lexicographic order; a listing of the same entries in another order
    gives the same paths. *)
Theorem getTestFiles_sorted_matching (s : RunState (World R)) files w' :
  fs_readdir R (testsDir this) (world s) = (Return files, w') ->
  exists names,
    fst (getTestFiles R this s)
      = Return (map (path_join R (testsDir this)) names) /\
    Permutation names (testNames files) /\
    StronglySorted sortsBefore names /\
    List.length names = List.length (testNames files) /\
    List.length (testNames files) + List.length (otherNames files)
      = List.length files /\
    forall (s2 : RunState (World R)) files2 w2,
      fs_readdir R (testsDir this) (world s2) = (Return files2, w2) ->
      Permutation files files2 ->
      fst (getTestFiles R this s2) = fst (getTestFiles R this s).
Proof.
  intros Hls. exists (sort (testNames files)).
  assert (Hrun : forall (s0 : RunState (World R)) l w0,
             fs_readdir R (testsDir this) (world s0) = (Return l, w0) ->
             fst (getTestFiles R this s0)
             = Return (map (path_join R (testsDir this)) (sort (testNames l)))).
  { intros s0 l w0 H. unfold getTestFiles, bind, call, ret. rewrite H. reflexivity. }
  split; [eapply Hrun; eauto|].
  split; [apply sort_perm|].
  split; [apply sort_sorted|].
  split; [apply Permutation_length, sort_perm|].
  split; [apply filter_split_length|].
  intros s2 files2 w2 H2 HP.
  rewrite (Hrun _ _ _ H2), (Hrun _ _ _ Hls).
  do 2 f_equal. apply sort_order_independent. unfold testNames.
  apply filter_perm. now symmetry.
Qed.

End Loader.

(** C6 on the scripted directory, which lists [2.test], [notes.txt] and
    [1.test] in that order. *)
Lemma getTestFiles_sorted_matching_example :
  fs_readdir (Demo.runtime Demo.twoTests) (testsDir Demo.agent)
             (world Demo.start)
    = (Return [str "2.test"; str "notes.txt"; str "1.test"], []) /\
  exists names,
    fst (getTestFiles (Demo.runtime Demo.twoTests) Demo.agent Demo.start)
      = Return (map (Demo.join (str "tests")) names) /\
    StronglySorted sortsBefore names /\
    List.length names = 2.
Proof.
  split; [reflexivity|].
  destruct (@getTestFiles_sorted_matching (Demo.runtime Demo.twoTests) Demo.agent
              Demo.start [str "2.test"; str "notes.txt"; str "1.test"] [] eq_refl)
    as (names & Hrun & _ & Hsorted & Hlen & _).
  exists names. repeat split; assumption.
Defined.

(* ----------------------------------------------------------------- *)
(** ** The orchestrator *)

Section Orchestrator.

Variable R : Runtime.
Variable this : TestAgent.

Lemma errorMessage_MessageOf e message :
  errorMessage e = Return message <-> MessageOf e message.
Proof.
  destruct e; simpl; try tauto.
  split; [intros [= ->]; reflexivity | intros ->; reflexivity].
Qed.

(** Only the conversion of an object with an own [toString] raises. *)
Lemma escapes_describable a : escapes a = None <-> describable a = true.
Proof.
  unfold escapes, describable.
  destruct (raisedValue a) as [e|]; [|tauto].
  destruct e as [| |[]|z|x|[|c m]|props]; simpl; try tauto.
  destruct (hasOwnProperty props (str "toString")); simpl;
    split; auto; discriminate.
Qed.

Lemma completed_escapes a : completed a = true -> escapes a = None.
Proof. destruct a; simpl; try discriminate. reflexivity. Qed.

(** One test.  The world moves by the calls of the attempt and the
    console grows by the lines of the attempt in every case; the method
    returns a result that records the attempt, unless the message of the
    raised value cannot be built: then it raises what line 115 raised. *)
Lemma runSingleTest_trace f n (s : RunState (World R)) :
  exists c,
    runSingleTest R f n s
      = (c, {| world := snd (attempt R f (world s));
               console := console s
                          ++ singleTestLog R f n (fst (attempt R f (world s))) |}) /\
    match escapes (fst (attempt R f (world s))) with
    | Some t => c = Throw t
    | None =>
        exists r,
          c = Return r /\
          testFile r = path_basename R f /\
          testNumber r = n /\
          Records (fst (attempt R f (world s))) r
    end.
Proof.
  run_async. unfold attempt, singleTestLog, escapes.
  destruct (fs_readFile R f (world s)) as [[c|e] w1]; simpl.
  - destruct (date_toISOString R w1) as [t w2]; simpl.
    destruct (agent_run R (buildTestPromptAt t c) w2) as [[v|e] w3]; simpl.
    + eexists. split; [rewrite <- !app_assoc; reflexivity|].
      eexists. repeat split.
    + destruct (errorMessage e) as [message|raised] eqn:He;
        (eexists; split; [rewrite <- !app_assoc; reflexivity|]).
      * eexists. repeat split. exists message. auto.
      * reflexivity.
  - destruct (errorMessage e) as [message|raised] eqn:He;
      (eexists; split; [rewrite <- !app_assoc; reflexivity|]).
    + eexists. repeat split. exists message. auto.
    + reflexivity.
Qed.

Lemma Records_success a r : Records a r -> success r = completed a.
Proof. destruct a; simpl; tauto. Qed.

Lemma Records_reports a r : Records a r -> ReportsFailure a r.
Proof.
  unfold ReportsFailure.
  destruct a; simpl; try tauto;
    intros (_ & _ & _ & message & He & Hr);
    exists message; (split; [now apply errorMessage_MessageOf | exact Hr]).
Qed.

Lemma Records_completed_eta c sent v r f n :
  testFile r = f -> testNumber r = n -> Records (Completed c sent v) r ->
  r = {| testFile := f; testNumber := n; prompt := c; result := v;
         success := true; error := None |}.
Proof.
  destruct r; simpl. intros -> -> (-> & -> & -> & ->). reflexivity.
Qed.

Lemma Records_raised_eta a e r f n :
  testFile r = f -> testNumber r = n -> raisedValue a = Some e -> Records a r ->
  exists message,
    errorMessage e = Return message /\
    r = {| testFile := f; testNumber := n; prompt := []; result := JNull;
           success := false; error := Some message |}.
Proof.
  destruct r; simpl. intros -> -> Ha.
  destruct a; simpl in *; try discriminate; injection Ha as ->;
    intros (-> & -> & -> & message & He & ->); exists message; auto.
Qed.

Lemma ownErrorCalls_app l1 l2 :
  ownErrorCalls (l1 ++ l2) = ownErrorCalls l1 + ownErrorCalls l2.
Proof. unfold ownErrorCalls. now rewrite filter_app, length_app. Qed.

Lemma ownErrorCalls_singleTestLog f n a :
  ownErrorCalls (singleTestLog R f n a) = if completed a then 0 else 1.
Proof. destruct a; reflexivity. Qed.

Lemma failedCount_cons r rs :
  failedCount (r :: rs) = (if success r then 0 else 1) + failedCount rs.
Proof. unfold failedCount. simpl. destruct (success r); reflexivity. Qed.

Lemma passedCount_cons r rs :
  passedCount (r :: rs) = (if success r then 1 else 0) + passedCount rs.
Proof. unfold passedCount. simpl. destruct (success r); reflexivity. Qed.

(** The loop when no attempt leaves its [catch] block: one result per
    file, in order, numbered from [i + 1]. *)
Lemma runAllTests_loop_trace files :
  forall i acc (s : RunState (World R)),
    firstEscape (attempts R files (world s)) = None ->
    exists rs out,
      runAllTests_loop R files i acc s
        = (Return (acc ++ rs), {| world := worldAfter R files (world s);
                                  console := console s ++ out |}) /\
      map testFile rs = map (path_basename R) files /\
      map testNumber rs = map Z.of_nat (seq (S i) (List.length files)) /\
      Forall2 Records (attempts R files (world s)) rs /\
      ownErrorCalls out = failedCount rs.
Proof.
  induction files as [|f files IH]; intros i acc s Hnone; simpl.
  - exists [], []. unfold ret. rewrite !app_nil_r. destruct s; auto.
  - simpl in Hnone.
    destruct (runSingleTest_trace f (Z.of_nat i + 1) s) as (c & Hrun & Hc).
    destruct (attempt R f (world s)) as [a w'] eqn:Ha. simpl in *.
    destruct (escapes a) as [t|] eqn:Hesc; [discriminate|].
    destruct Hc as (r & -> & Hfile & Hnum & Hrec).
    unfold bind at 1. rewrite Hrun.
    match goal with
    | |- context [runAllTests_loop R files (S i) (acc ++ [r]) ?st] =>
        destruct (IH (S i) (acc ++ [r]) st Hnone)
          as (rs & out' & Hloop & Hfiles & Hnums & Hrecs & Hcount)
    end.
    rewrite Hloop. simpl.
    exists (r :: rs), (singleTestLog R f (Z.of_nat i + 1) a ++ out').
    split; [rewrite <- !app_assoc; reflexivity|].
    split; [simpl; now rewrite Hfile, Hfiles|].
    split; [simpl; rewrite Hnum, Hnums; f_equal; lia|].
    split; [constructor; assumption|].
    rewrite ownErrorCalls_app, ownErrorCalls_singleTestLog, failedCount_cons, Hcount.
    now rewrite (Records_success _ _ Hrec).
Qed.

(** The loop when an attempt leaves its [catch] block: the loop raises
    what the first such attempt raised. *)
Lemma runAllTests_loop_escape files :
  forall i acc (s : RunState (World R)) t,
    firstEscape (attempts R files (world s)) = Some t ->
    exists w' out,
      runAllTests_loop R files i acc s
        = (Throw t, {| world := w'; console := console s ++ out |}).
Proof.
  induction files as [|f files IH]; intros i acc s t Hsome; simpl in *.
  - discriminate.
  - destruct (runSingleTest_trace f (Z.of_nat i + 1) s) as (c & Hrun & Hc).
    destruct (attempt R f (world s)) as [a w1] eqn:Ha. simpl in *.
    unfold bind at 1. rewrite Hrun.
    destruct (escapes a) as [t'|] eqn:Hesc.
    + injection Hsome as ->. subst c. eauto.
    + destruct Hc as (r & -> & _).
      match goal with
      | |- context [runAllTests_loop R files (S i) (acc ++ [r]) ?st] =>
          destruct (IH (S i) (acc ++ [r]) st t Hsome) as (w' & out & Hloop)
      end.
      rewrite Hloop. simpl. rewrite <- app_assoc. eauto.
Qed.

Lemma getTestFiles_inv (s s1 : RunState (World R)) files :
  getTestFiles R this s = (Return files, s1) ->
  exists listed,
    fs_readdir R (testsDir this) (world s) = (Return listed, world s1) /\
    files = selectTestFiles R this listed /\
    console s1 = console s.
Proof.
  unfold getTestFiles, bind, call, ret.
  destruct (fs_readdir R (testsDir this) (world s)) as [[listed|e] w'];
    [|discriminate].
  intros [= <- <-]. exists listed. auto.
Qed.

(** The whole run after a listing that succeeded, when no attempt leaves
    its [catch] block. *)
Lemma runAllTests_trace (s s1 : RunState (World R)) files :
  getTestFiles R this s = (Return files, s1) ->
  firstEscape (attempts R files (world s1)) = None ->
  exists rs out,
    runAllTests R this s
      = (Return rs,
         {| world := worldAfter R files (world s1);
            console := console s ++ foundLine R files :: out |}) /\
    map testFile rs = map (path_basename R) files /\
    map testNumber rs = map Z.of_nat (seq 1 (List.length files)) /\
    Forall2 Records (attempts R files (world s1)) rs /\
    ownErrorCalls out = failedCount rs.
Proof.
  intros Hls Hnone.
  destruct (getTestFiles_inv _ Hls) as (listed & _ & _ & Hcons).
  unfold runAllTests. unfold bind at 1. rewrite Hls.
  unfold bind, log, write at 1. simpl.
  match goal with
  | |- context [runAllTests_loop R files 0 [] ?st] =>
      destruct (runAllTests_loop_trace files 0 [] st Hnone)
        as (rs & out & Hloop & Hfiles & Hnums & Hrecs & Hcount)
  end.
  rewrite Hloop. simpl. rewrite Hcons, <- app_assoc. simpl.
  exists rs, out. auto.
Qed.

(** The whole run after a listing that succeeded, when an attempt leaves
    its [catch] block. *)
Lemma runAllTests_escape (s s1 : RunState (World R)) files t :
  getTestFiles R this s = (Return files, s1) ->
  firstEscape (attempts R files (world s1)) = Some t ->
  exists w' out,
    runAllTests R this s
      = (Throw t, {| world := w';
                     console := console s ++ foundLine R files :: out |}).
Proof.
  intros Hls Hsome.
  destruct (getTestFiles_inv _ Hls) as (listed & _ & _ & Hcons).
  unfold runAllTests. unfold bind at 1. rewrite Hls.
  unfold bind, log, write at 1. simpl.
  match goal with
  | |- context [runAllTests_loop R files 0 [] ?st] =>
      destruct (runAllTests_loop_escape files 0 [] st Hsome)
        as (w' & out & Hloop)
  end.
  rewrite Hloop. simpl. rewrite Hcons, <- app_assoc. simpl. eauto.
Qed.

(** A run that returned had no attempt leave its [catch] block. *)
Lemma runAllTests_returned (s s1 s' : RunState (World R)) files rs :
  getTestFiles R this s = (Return files, s1) ->
  runAllTests R this s = (Return rs, s') ->
  firstEscape (attempts R files (world s1)) = None.
Proof.
  intros Hls Hrun.
  destruct (firstEscape (attempts R files (world s1))) as [t|] eqn:Hesc;
    [|reflexivity].
  destruct (runAllTests_escape _ Hls Hesc) as (w' & out & Habort).
  rewrite Habort in Hrun. discriminate.
Qed.

(** When the listing raises, the run raises the same at once: nothing is
    written and no call follows the listing. *)
Lemma runAllTests_listing_raises (s : RunState (World R)) e w' :
  fs_readdir R (testsDir this) (world s) = (Throw e, w') ->
  runAllTests R this s = (Throw e, {| world := w'; console := console s |}).
Proof.
  intros Hls. unfold runAllTests, getTestFiles, bind, call.
  rewrite Hls. reflexivity.
Qed.

Lemma Forall2_length_eq {A B} (P : A -> B -> Prop) l1 l2 :
  Forall2 P l1 l2 -> List.length l1 = List.length l2.
Proof. induction 1; simpl; auto. Qed.

Lemma attempts_length files : forall w, List.length (attempts R files w) = List.length files.
Proof.
  induction files as [|f files IH]; intros w; simpl; auto.
  destruct (attempt R f w). simpl. auto.
Qed.

Lemma map_length_eq {A B C} (f : A -> C) (g : B -> C) l1 l2 :
  map f l1 = map g l2 -> List.length l1 = List.length l2.
Proof.
  intros H. apply (f_equal (@List.length C)) in H. now rewrite !length_map in H.
Qed.

Lemma Forall2_map_eq {A B C} (P : A -> B -> Prop) (f : B -> C) (g : A -> C) l1 l2 :
  (forall a b, P a b -> f b = g a) ->
  Forall2 P l1 l2 -> map f l2 = map g l1.
Proof.
  intros HP. induction 1; simpl; [reflexivity|]. f_equal; auto.
Qed.

Lemma firstEscape_None attempted :
  Forall (fun a => escapes a = None) attempted -> firstEscape attempted = None.
Proof.
  induction 1 as [|a rest Ha _ IH]; simpl; [reflexivity|]. now rewrite Ha.
Qed.

Lemma firstEscape_None_all attempted :
  firstEscape attempted = None ->
  Forall (fun a => describable a = true) attempted.
Proof.
  induction attempted as [|a rest IH]; simpl; [constructor|].
  destruct (escapes a) eqn:Ha; [discriminate|].
  intros Hrest. constructor; [now apply escapes_describable | auto].
Qed.

(** What leaves a [catch] block is the [TypeError] of a conversion. *)
Lemma escapes_Some a t :
  escapes a = Some t -> describable a = false /\ t = cannotConvert.
Proof.
  unfold escapes, describable.
  destruct (raisedValue a) as [e|]; [|discriminate].
  destruct e as [| |[]|z|x|[|c m]|props]; simpl; try discriminate.
  destruct (hasOwnProperty props (str "toString")); simpl;
    [intros [= <-]; auto | discriminate].
Qed.

Lemma firstEscape_Some attempted t :
  firstEscape attempted = Some t ->
  exists a, In a attempted /\ describable a = false /\ t = cannotConvert.
Proof.
  induction attempted as [|a rest IH]; simpl; [discriminate|].
  destruct (escapes a) as [t'|] eqn:Ha.
  - intros [= <-]. destruct (escapes_Some _ Ha) as [Hd ->].
    exists a. auto.
  - intros Hrest. destruct (IH Hrest) as (b & Hin & Hd & ->).
    exists b. auto.
Qed.

(** C8 (amended): when the file is read as [testContent] and the agent
    answers [v] to the prompt it is sent, the result holds the base name
    of the file, the ordinal, [v], [success = true], no error, and in its
    [prompt] field the content of the file as it was read. *)
Theorem runSingleTest_success_record f n (s : RunState (World R))
    testContent sent v :
  fst (attempt R f (world s)) = Completed testContent sent v ->
  fst (runSingleTest R f n s)
    = Return {| testFile := path_basename R f;
                testNumber := n;
                prompt := testContent;
                result := v;
                success := true;
                error := None |}.
Proof.
  intros Ha.
  destruct (runSingleTest_trace f n s) as (c & Hrun & Hc).
  rewrite Ha in Hc. simpl in Hc. destruct Hc as (r & -> & Hfile & Hnum & Hrec).
  rewrite Hrun. simpl. f_equal.
  exact (@Records_completed_eta testContent sent v r _ _ Hfile Hnum Hrec).
Qed.

(** C10: when the read or the agent raised [e] and the message of [e] is
    built, the result is the failed record: base name of the file,
    ordinal, empty [prompt], null [result], [success = false] and the
    message; also when the file had been read and the prompt built before
    the agent raised.  No other record is returned after a failure: when
    the message cannot be built, the method raises what line 115
    raised. *)
Theorem runSingleTest_failed_record f n (s : RunState (World R)) e :
  raisedValue (fst (attempt R f (world s))) = Some e ->
  fst (runSingleTest R f n s)
    = match errorMessage e with
      | Return message =>
          Return {| testFile := path_basename R f;
                    testNumber := n;
                    prompt := [];
                    result := JNull;
                    success := false;
                    error := Some message |}
      | Throw raised => Throw raised
      end.
Proof.
  intros Ha.
  destruct (runSingleTest_trace f n s) as (c & Hrun & Hc).
  rewrite Hrun. simpl. unfold escapes in Hc. rewrite Ha in Hc.
  destruct (errorMessage e) as [message|raised] eqn:He.
  - destruct Hc as (r & -> & Hfile & Hnum & Hrec). f_equal.
    destruct (@Records_raised_eta _ _ _ _ _ Hfile Hnum Ha Hrec) as (m & Hm & ->).
    congruence.
  - exact Hc.
Qed.

(** C2 (amended): for K listed files that are all read, where whatever
    the agent raises is an [Error] or a value [String] converts, the run
    returns K results and is not aborted; a result has [success = false]
    exactly when the agent raised for its file, and then its [error] is
    the message of the raised value, [error.message] for an [Error] and
    [String(error)] otherwise (empty when that message is empty); the
    other results have [success = true] and no [error]. *)
Theorem runAllTests_isolates_gateway_failures (s s1 : RunState (World R)) files :
  getTestFiles R this s = (Return files, s1) ->
  Forall (fun a => readRaised a = false) (attempts R files (world s1)) ->
  Forall (fun a => describable a = true) (attempts R files (world s1)) ->
  exists rs s',
    runAllTests R this s = (Return rs, s') /\
    List.length rs = List.length files /\
    map success rs
      = map (fun a => negb (gatewayRaised a)) (attempts R files (world s1)) /\
    Forall2 ReportsFailure (attempts R files (world s1)) rs.
Proof.
  intros Hls Hread Hconv.
  assert (Hnone : firstEscape (attempts R files (world s1)) = None).
  { apply firstEscape_None. eapply Forall_impl; [|exact Hconv].
    intros a. apply escapes_describable. }
  destruct (runAllTests_trace _ Hls Hnone)
    as (rs & out & Hrun & Hfiles & _ & Hrecs & _).
  eexists. eexists. split; [exact Hrun|].
  split; [eapply map_length_eq; eauto|].
  split.
  - rewrite (Forall2_map_eq success completed Records_success Hrecs).
    apply map_ext_in. intros a Ha.
    rewrite Forall_forall in Hread. specialize (Hread a Ha).
    destruct a; simpl in *; congruence.
  - eapply Forall2_impl; [|exact Hrecs]. apply Records_reports.
Qed.

(** C3: for K listed files, each read and answered by the agent, the run
    returns K results, all with [success = true] and no [error], numbered
    1 to K, the i-th result for the i-th file. *)
Theorem runAllTests_all_succeed (s s1 : RunState (World R)) files :
  getTestFiles R this s = (Return files, s1) ->
  Forall (fun a => completed a = true) (attempts R files (world s1)) ->
  exists rs s',
    runAllTests R this s = (Return rs, s') /\
    List.length rs = List.length files /\
    Forall (fun r => success r = true /\ error r = None) rs /\
    map testNumber rs = map Z.of_nat (seq 1 (List.length files)) /\
    map testFile rs = map (path_basename R) files.
Proof.
  intros Hls Hok.
  assert (Hnone : firstEscape (attempts R files (world s1)) = None).
  { apply firstEscape_None. eapply Forall_impl; [|exact Hok].
    intros a. apply completed_escapes. }
  destruct (runAllTests_trace _ Hls Hnone)
    as (rs & out & Hrun & Hfiles & Hnums & Hrecs & _).
  eexists. eexists. split; [exact Hrun|].
  split; [eapply map_length_eq; eauto|].
  split; [|split; assumption].
  clear Hrun Hfiles Hnums Hnone.
  induction Hrecs as [|a r l rs' Hrec _ IH]; constructor.
  - inversion Hok as [|? ? Ha _]; subst.
    destruct a; simpl in *; try discriminate. tauto.
  - apply IH. now inversion Hok.
Qed.

End Orchestrator.

(* ----------------------------------------------------------------- *)
(** ** The orchestrator on the scripted runtime *)

(** C1: the claim fails on the code.  When the agent rejects with a value
    [String] cannot convert, here [{ toString: 1 }], the file is read and
    the prompt built, the [catch] block is entered, and line 115 raises
    a [TypeError] that leaves [runSingleTest]: no result is returned. *)
Theorem runSingleTest_raises_when_the_message_cannot_be_built :
  fst (attempt (Demo.runtime DemoHost.rejectsWithObject) (str "tests/1.test")
               (world Demo.start))
    = GatewayRaised (str "open example.com")
                    (buildTestPromptAt sampleTime (str "open example.com"))
                    (JObject [(str "toString", JNumber 1)]) /\
  fst (runSingleTest (Demo.runtime DemoHost.rejectsWithObject)
                     (str "tests/1.test") 1 Demo.start)
    = Throw (JError (str "Cannot convert object to primitive value")).
Proof. split; vm_compute; reflexivity. Qed.

(** C7: the claim fails on the code.  The listing succeeds with two
    files; the agent rejects the first with a value [String] cannot
    convert; the [TypeError] of line 115 leaves [runSingleTest] and, as
    the loop has no handler, [runAllTests]: a failure inside a test
    reaches the caller, no result is returned and the second file is
    never attempted (the agent received one prompt). *)
Theorem runAllTests_raises_after_a_successful_listing :
  getTestFiles (Demo.runtime DemoHost.rejectsWithObject) Demo.agent Demo.start
    = (Return [str "tests/1.test"; str "tests/2.test"], Demo.start) /\
  exists written,
    runAllTests (Demo.runtime DemoHost.rejectsWithObject) Demo.agent Demo.start
    = (Throw (JError (str "Cannot convert object to primitive value")),
       {| world := [buildTestPromptAt sampleTime (str "open example.com")];
          console := written |}).
Proof.
  split; [reflexivity|]. eexists. vm_compute. reflexivity.
Qed.

(** C8, as stated, fails: on a successful run the [prompt] field holds
    the content of the file, which is not the prompt the agent was sent
    (the scripted world keeps what the agent received). *)
Lemma runSingleTest_prompt_field_is_not_the_sent_prompt :
  exists r sent out,
    runSingleTest (Demo.runtime Demo.twoTests) (str "tests/1.test") 1 Demo.start
      = (Return r, {| world := [sent]; console := out |}) /\
    success r = true /\
    prompt r = str "open example.com" /\
    sent = buildTestPromptAt sampleTime (str "open example.com") /\
    prompt r <> sent.
Proof.
  do 3 eexists. split; [vm_compute; reflexivity|].
  repeat split. vm_compute. discriminate.
Qed.

(** C8 (amended) on the first file of the scripted directory. *)
Lemma runSingleTest_success_record_example :
  fst (attempt (Demo.runtime Demo.twoTests) (str "tests/1.test")
               (world Demo.start))
    = Completed (str "open example.com")
                (buildTestPromptAt sampleTime (str "open example.com"))
                Demo.ok /\
  fst (runSingleTest (Demo.runtime Demo.twoTests) (str "tests/1.test") 1
                     Demo.start)
    = Return {| testFile := str "1.test";
                testNumber := 1;
                prompt := str "open example.com";
                result := Demo.ok;
                success := true;
                error := None |}.
Proof.
  split; [reflexivity|].
  exact (@runSingleTest_success_record (Demo.runtime Demo.twoTests)
           (str "tests/1.test") 1 Demo.start _ _ _ eq_refl).
Defined.

(** C10 where the agent raises after the file was read and the prompt
    built. *)
Lemma runSingleTest_failed_record_example :
  fst (attempt (Demo.runtime Demo.secondFails) (str "tests/2.test")
               (world Demo.start))
    = GatewayRaised (str "open other.com")
                    (buildTestPromptAt sampleTime (str "open other.com"))
                    (JError (str "navigation timeout")) /\
  fst (runSingleTest (Demo.runtime Demo.secondFails) (str "tests/2.test") 2
                     Demo.start)
    = Return {| testFile := str "2.test";
                testNumber := 2;
                prompt := [];
                result := JNull;
                success := false;
                error := Some (str "navigation timeout") |}.
Proof.
  split; [reflexivity|].
  exact (@runSingleTest_failed_record (Demo.runtime Demo.secondFails)
           (str "tests/2.test") 2 Demo.start
           (JError (str "navigation timeout")) eq_refl).
Defined.

(** C2, as stated, fails when the agent rejects with an error whose
    message is empty: the failed result carries an empty [error]. *)
Lemma runAllTests_failure_with_empty_message :
  exists r testContent sent,
    attempts (Demo.runtime Demo.silentFailure) [str "tests/1.test"]
             (world Demo.start)
      = [GatewayRaised testContent sent (JError [])] /\
    fst (runAllTests (Demo.runtime Demo.silentFailure) Demo.agent Demo.start)
      = Return [r] /\
    success r = false /\
    error r = Some [].
Proof.
  do 3 eexists. split; [reflexivity|]. split; [vm_compute; reflexivity|].
  split; reflexivity.
Qed.

(** C2 (amended) on three files: the agent answers the first, rejects
    the second with an [Error] and the third with a plain string. *)
Lemma runAllTests_isolates_gateway_failures_example :
  getTestFiles (Demo.runtime DemoHost.mixedFailures) Demo.agent Demo.start
    = (Return [str "tests/1.test"; str "tests/2.test"; str "tests/3.test"],
       Demo.start) /\
  Forall (fun a => readRaised a = false)
         (attempts (Demo.runtime DemoHost.mixedFailures)
                   [str "tests/1.test"; str "tests/2.test"; str "tests/3.test"]
                   (world Demo.start)) /\
  Forall (fun a => describable a = true)
         (attempts (Demo.runtime DemoHost.mixedFailures)
                   [str "tests/1.test"; str "tests/2.test"; str "tests/3.test"]
                   (world Demo.start)) /\
  exists rs s',
    runAllTests (Demo.runtime DemoHost.mixedFailures) Demo.agent Demo.start
      = (Return rs, s') /\
    map success rs = [true; false; false] /\
    map error rs = [None; Some (str "navigation timeout");
                    Some (str "quota exceeded")].
Proof.
  assert (H1 : getTestFiles (Demo.runtime DemoHost.mixedFailures) Demo.agent
                 Demo.start
               = (Return [str "tests/1.test"; str "tests/2.test";
                          str "tests/3.test"], Demo.start))
    by reflexivity.
  assert (H2 : Forall (fun a => readRaised a = false)
                 (attempts (Demo.runtime DemoHost.mixedFailures)
                    [str "tests/1.test"; str "tests/2.test"; str "tests/3.test"]
                    (world Demo.start)))
    by (repeat constructor).
  assert (H3 : Forall (fun a => describable a = true)
                 (attempts (Demo.runtime DemoHost.mixedFailures)
                    [str "tests/1.test"; str "tests/2.test"; str "tests/3.test"]
                    (world Demo.start)))
    by (repeat constructor).
  split; [exact H1|]. split; [exact H2|]. split; [exact H3|].
  destruct (@runAllTests_isolates_gateway_failures
              (Demo.runtime DemoHost.mixedFailures) Demo.agent Demo.start
              Demo.start
              [str "tests/1.test"; str "tests/2.test"; str "tests/3.test"]
              H1 H2 H3)
    as (rs & s' & Hrun & _ & Hsuccess & Hreports).
  exists rs, s'. split; [exact Hrun|]. split; [exact Hsuccess|].
  inversion Hreports as [|a1 r1 l1 rs1 Hr1 Hrest1]; subst.
  inversion Hrest1 as [|a2 r2 l2 rs2 Hr2 Hrest2]; subst.
  inversion Hrest2 as [|a3 r3 l3 rs3 Hr3 Hrest3]; subst.
  inversion Hrest3; subst.
  destruct Hr2 as (m2 & Hm2 & He2). destruct Hr3 as (m3 & Hm3 & He3).
  simpl in Hr1, Hm2, Hm3. injection Hm3 as <-. subst m2.
  simpl. rewrite Hr1, He2, He3. reflexivity.
Defined.

(** C3 on the scenario of the specification: two files, an agent that
    always answers. *)
Lemma runAllTests_all_succeed_example :
  getTestFiles (Demo.runtime Demo.twoTests) Demo.agent Demo.start
    = (Return [str "tests/1.test"; str "tests/2.test"], Demo.start) /\
  Forall (fun a => completed a = true)
         (attempts (Demo.runtime Demo.twoTests)
                   [str "tests/1.test"; str "tests/2.test"] (world Demo.start)) /\
  exists rs s',
    runAllTests (Demo.runtime Demo.twoTests) Demo.agent Demo.start
      = (Return rs, s') /\
    Forall (fun r => success r = true /\ error r = None) rs /\
    map testNumber rs = [1; 2]%Z /\
    map testFile rs = [str "1.test"; str "2.test"].
Proof.
  assert (H1 : getTestFiles (Demo.runtime Demo.twoTests) Demo.agent Demo.start
               = (Return [str "tests/1.test"; str "tests/2.test"], Demo.start))
    by reflexivity.
  assert (H2 : Forall (fun a => completed a = true)
                 (attempts (Demo.runtime Demo.twoTests)
                    [str "tests/1.test"; str "tests/2.test"] (world Demo.start)))
    by (repeat constructor).
  split; [exact H1|]. split; [exact H2|].
  destruct (@runAllTests_all_succeed
              (Demo.runtime Demo.twoTests) Demo.agent Demo.start Demo.start
              [str "tests/1.test"; str "tests/2.test"] H1 H2)
    as (rs & s' & Hrun & _ & Hall & Hnums & Hfiles).
  exists rs, s'. split; [exact Hrun|]. split; [exact Hall|]. split; assumption.
Defined.

(** The scenario of the missing directory: the run raises the listing's
    error and nothing else happens. *)
Example runAllTests_missing_directory :
  runAllTests (Demo.runtime Demo.missingDirectory) Demo.agent Demo.start
  = (Throw (JError (str "ENOENT: no such file or directory, scandir 'tests'")),
     Demo.start).
Proof. reflexivity. Qed.

(* ----------------------------------------------------------------- *)
(** ** The reporter *)

Section Reporter.

Variable R : Runtime.

Lemma printSummary_each_run r (s : RunState (World R)) :
  printSummary_each R r s
  = (Return tt, {| world := world s;
                   console := console s ++ printed (resultLines r) |}).
Proof.
  unfold printSummary_each, resultLines, shownError, truthy, log, write, bind, ret.
  simpl. destruct (error r) as [[|c message]|]; simpl;
    rewrite <- ?app_assoc; reflexivity.
Qed.

Lemma forEach_printSummary_each rs :
  forall s : RunState (World R),
    forEach rs (printSummary_each R) s
    = (Return tt, {| world := world s;
                     console := console s ++ printed (flat_map resultLines rs) |}).
Proof.
  unfold printed.
  induction rs as [|r rs IH]; intros s; simpl.
  - unfold ret. rewrite app_nil_r. destruct s; reflexivity.
  - unfold bind. rewrite printSummary_each_run, IH. simpl.
    unfold printed. rewrite map_app, <- !app_assoc. reflexivity.
Qed.

Lemma filter_success_length rs :
  List.length (filter success rs) = passedCount rs.
Proof.
  unfold passedCount. induction rs as [|r rs IH]; simpl; [reflexivity|].
  destruct (success r); simpl; auto.
Qed.

Lemma passed_plus_failed rs :
  passedCount rs + failedCount rs = List.length rs.
Proof.
  unfold passedCount, failedCount.
  induction rs as [|r rs IH]; simpl; [reflexivity|].
  destruct (success r); simpl; lia.
Qed.

(** C9 (amended): for every sequence of results the reporter prints,
    after its header, the line of each result in order (status, ordinal,
    file name), followed by an error line exactly when the result carries
    a non-empty error message, and ends with the tally of total, passed
    and failed; what is printed depends on the sequence alone. *)
Theorem printSummary_report rs (s : RunState (World R)) :
  printSummary R rs s
  = (Return tt,
     {| world := world s;
        console := console s
                   ++ printed (summaryHeader
                               ++ flat_map resultLines rs
                               ++ [tallyLine (List.length rs) (passedCount rs)
                                             (failedCount rs)]) |}) /\
  passedCount rs + failedCount rs = List.length rs.
Proof.
  split; [|apply passed_plus_failed].
  unfold printSummary, log, write. unfold bind at 1 2 3. simpl.
  unfold bind. rewrite forEach_printSummary_each. simpl.
  rewrite filter_success_length.
  replace (Z.of_nat (List.length rs) - Z.of_nat (passedCount rs))%Z
    with (Z.of_nat (failedCount rs))
    by (pose proof (passed_plus_failed rs); lia).
  unfold printed, tallyLine. rewrite !map_app, <- !app_assoc. reflexivity.
Qed.

End Reporter.

(** C9, as stated, fails on a failed result whose error message is
    empty, as [runAllTests] returns when the agent rejects with
    [new Error()]: its line is followed by the tally, not by an error. *)
Lemma printSummary_no_error_line_for_empty_message :
  exists r,
    fst (runAllTests (Demo.runtime Demo.silentFailure) Demo.agent Demo.start)
      = Return [r] /\
    success r = false /\
    error r = Some [] /\
    console (snd (printSummary (Demo.runtime Demo.silentFailure) [r] Demo.start))
      = printed (summaryHeader ++ [statusLine r; tallyLine 1 0 1]).
Proof.
  eexists. split; [vm_compute; reflexivity|].
  repeat split.
Qed.

(** The report of the specification's scenario. *)
Example printSummary_two_passed :
  forall rs s',
    runAllTests (Demo.runtime Demo.twoTests) Demo.agent Demo.start
      = (Return rs, s') ->
    console (snd (printSummary (Demo.runtime Demo.twoTests) rs Demo.start))
    = printed (summaryHeader
               ++ [PASSED ++ str " - Test #1: 1.test";
                   PASSED ++ str " - Test #2: 2.test";
                   nl ++ str "Total: 2 | Passed: 2 | Failed: 0"]).
Proof.
  intros rs s' H. vm_compute in H. injection H as <- _. vm_compute. reflexivity.
Qed.

(* ================================================================= *)
(** * Further properties of the code *)

(* ----------------------------------------------------------------- *)
(** ** The loader: which names are selected *)

Section LoaderSelection.

Lemma eqb_eq a b : eqb a b = true <-> a = b.
Proof.
  unfold eqb. destruct (list_eq_dec N.eq_dec a b); split; auto; discriminate.
Qed.

(** [endsWith] holds of the strings that are the suffix after a prefix,
    the empty prefix included. *)
Lemma endsWith_spec s p : endsWith s p = true <-> exists pre, s = pre ++ p.
Proof.
  unfold endsWith. split.
  - destruct (List.length s <? List.length p) eqn:Hlt; [discriminate|].
    intros H. apply eqb_eq in H.
    exists (firstn (List.length s - List.length p) s).
    transitivity (firstn (List.length s - List.length p) s
                  ++ skipn (List.length s - List.length p) s).
    + symmetry. apply firstn_skipn.
    + f_equal. exact H.
  - intros [pre ->]. rewrite length_app.
    replace (List.length pre + List.length p <? List.length p) with false
      by (symmetry; apply Nat.ltb_ge; lia).
    replace (List.length pre + List.length p - List.length p)
      with (List.length pre + 0) by lia.
    rewrite skipn_app, Nat.add_0_r, skipn_all.
    replace (List.length pre - List.length pre) with 0 by lia.
    apply eqb_eq. reflexivity.
Qed.

Variable R : Runtime.
Variable this : TestAgent.

(** X1: a path is returned exactly when it is the directory joined with
    a listed name that consists of some prefix, possibly empty, followed
    by [.test]. *)
Theorem getTestFiles_selects_by_extension (s : RunState (World R)) files w' :
  fs_readdir R (testsDir this) (world s) = (Return files, w') ->
  exists paths,
    getTestFiles R this s
      = (Return paths, {| world := w'; console := console s |}) /\
    forall p,
      In p paths <->
      exists pre,
        In (pre ++ str ".test") files /\
        p = path_join R (testsDir this) (pre ++ str ".test").
Proof.
  intros Hls. exists (selectTestFiles R this files). split.
  - unfold getTestFiles, bind, call, ret. rewrite Hls. reflexivity.
  - intros p. unfold selectTestFiles. rewrite in_map_iff. split.
    + intros (name & <- & Hin).
      apply (Permutation_in _ (sort_perm _)) in Hin.
      apply filter_In in Hin as [Hin Hext].
      apply endsWith_spec in Hext as [pre ->]. eauto.
    + intros (pre & Hin & ->). exists (pre ++ str ".test"). split; [reflexivity|].
      apply (Permutation_in _ (Permutation_sym (sort_perm _))).
      apply filter_In. split; [exact Hin|].
      apply endsWith_spec. eauto.
Qed.

End LoaderSelection.

(** X1 on the scripted directory. *)
Lemma getTestFiles_selects_by_extension_example :
  fs_readdir (Demo.runtime Demo.twoTests) (testsDir Demo.agent)
             (world Demo.start)
    = (Return [str "2.test"; str "notes.txt"; str "1.test"], []) /\
  exists paths,
    fst (getTestFiles (Demo.runtime Demo.twoTests) Demo.agent Demo.start)
      = Return paths /\
    In (str "tests/2.test") paths.
Proof.
  split; [reflexivity|].
  destruct (@getTestFiles_selects_by_extension (Demo.runtime Demo.twoTests)
              Demo.agent Demo.start
              [str "2.test"; str "notes.txt"; str "1.test"] [] eq_refl)
    as (paths & Hrun & Hin).
  exists paths. split; [now rewrite Hrun|].
  apply Hin. exists (str "2"). split; [now left|reflexivity].
Defined.

(* ----------------------------------------------------------------- *)
(** ** The prompt builder: what the prompt tells apart *)

Section PromptDistinguishes.

Lemma trimEnd_nil_iff C : trimEnd C = [] <-> isBlank C = true.
Proof.
  split.
  - intros H. destruct (trimEnd_split C) as [ws [Hws Heq]].
    rewrite H in Heq. simpl in Heq. now subst.
  - apply trimEnd_blank.
Qed.

Lemma embeddedContent_inj C1 C2 :
  embeddedContent C1 = embeddedContent C2 <-> trimEnd C1 = trimEnd C2.
Proof.
  unfold embeddedContent.
  destruct (isBlank C1) eqn:H1, (isBlank C2) eqn:H2.
  - rewrite !trimEnd_blank by assumption. tauto.
  - split; [discriminate|]. intros H.
    rewrite trimEnd_blank in H by assumption. symmetry in H.
    apply trimEnd_nil_iff in H. congruence.
  - split; [discriminate|]. intros H.
    rewrite (trimEnd_blank _ H2) in H.
    apply trimEnd_nil_iff in H. congruence.
  - split; [intros [= H]; exact H | intros ->; reflexivity].
Qed.

(** X2: at one instant, two contents give the same prompt exactly when
    they are equal up to trailing white space. *)
Theorem buildTestPromptAt_same_iff_same_up_to_trailing_space t C1 C2 :
  buildTestPromptAt t C1 = buildTestPromptAt t C2 <-> trimEnd C1 = trimEnd C2.
Proof.
  rewrite !buildTestPromptAt_parts, <- embeddedContent_inj. split.
  - intros H. now do 2 apply app_inv_head in H.
  - intros ->. reflexivity.
Qed.

(** X3: for one content, two different timestamps give two different
    prompts. *)
Theorem buildTestPromptAt_timestamp_shows t1 t2 C :
  t1 <> t2 -> buildTestPromptAt t1 C <> buildTestPromptAt t2 C.
Proof.
  intros Hne H. apply Hne.
  rewrite !buildTestPromptAt_parts in H. unfold promptHeader in H.
  rewrite <- !app_assoc in H. apply app_inv_head in H.
  now apply app_inv_tail in H.
Qed.

End PromptDistinguishes.

(** X3 at two instants one second apart. *)
Lemma buildTestPromptAt_timestamp_shows_example :
  sampleTime <> str "2026-01-01T00:00:01.000Z" /\
  buildTestPromptAt sampleTime (str "open example.com")
  <> buildTestPromptAt (str "2026-01-01T00:00:01.000Z") (str "open example.com").
Proof.
  assert (H : sampleTime <> str "2026-01-01T00:00:01.000Z")
    by (vm_compute; discriminate).
  split; [exact H|].
  exact (@buildTestPromptAt_timestamp_shows _ _ (str "open example.com") H).
Defined.

(* ----------------------------------------------------------------- *)
(** ** The orchestrator: what a run does to the world and the console *)

Section OrchestratorTraces.

Variable R : Runtime.
Variable this : TestAgent.

(** X4: no validation of the content.  A file that holds nothing but
    white space is still sent: the agent receives the header and the
    instruction block with no steps, and when it answers the test passes
    with the content as read in its [prompt] field. *)
Theorem runSingleTest_blank_content_is_sent f n (s : RunState (World R))
    c w1 t w2 v w3 :
  fs_readFile R f (world s) = (Return c, w1) ->
  isBlank c = true ->
  date_toISOString R w1 = (t, w2) ->
  agent_run R (promptHeader t ++ instructionBlock) w2 = (Return v, w3) ->
  runSingleTest R f n s
  = (Return {| testFile := path_basename R f;
               testNumber := n;
               prompt := c;
               result := v;
               success := true;
               error := None |},
     {| world := w3;
        console := console s
                   ++ singleTestLog R f n
                        (Completed c (promptHeader t ++ instructionBlock) v) |}).
Proof.
  intros Hread Hblank Hclock Hrun.
  assert (Ha : attempt R f (world s)
               = (Completed c (promptHeader t ++ instructionBlock) v, w3)).
  { unfold attempt. rewrite Hread, Hclock.
    rewrite buildTestPromptAt_parts. unfold embeddedContent.
    rewrite Hblank, app_nil_r, Hrun. reflexivity. }
  destruct (runSingleTest_trace R f n s) as (o & Hr & Ho).
  rewrite Ha in Hr, Ho. simpl in Ho.
  destruct Ho as (r & -> & Hfile & Hnum & Hrec).
  rewrite Hr. simpl. f_equal. f_equal.
  exact (@Records_completed_eta c (promptHeader t ++ instructionBlock) v r _ _
           Hfile Hnum Hrec).
Qed.

(** X5: when the read raises, the clock is not read and the agent is not
    called: the world stays as the read left it, and the console gets the
    three header lines and one [console.error] with the raised value.
    The failed record is returned with the message of the raised value;
    should that message not be buildable, what line 115 raises is raised
    instead, after the same console calls. *)
Theorem runSingleTest_read_failure f n (s : RunState (World R)) e w1 :
  fs_readFile R f (world s) = (Throw e, w1) ->
  runSingleTest R f n s
  = (match errorMessage e with
     | Return message =>
         Return {| testFile := path_basename R f;
                   testNumber := n;
                   prompt := [];
                   result := JNull;
                   success := false;
                   error := Some message |}
     | Throw raised => Throw raised
     end,
     {| world := w1;
        console := console s
                   ++ [console_log [JString (nl ++ banner)];
                       console_log
                         [JString (str "Running Test #" ++ ofZ n ++ str ": "
                                   ++ path_basename R f)];
                       console_log [JString banner];
                       console_error
                         [JString (nl ++ str "Error running test:"); e]] |}).
Proof.
  intros Hread.
  assert (Ha : attempt R f (world s) = (ReadRaised e, w1)).
  { unfold attempt. rewrite Hread. reflexivity. }
  destruct (runSingleTest_trace R f n s) as (o & Hr & Ho).
  rewrite Ha in Hr, Ho. unfold escapes in Ho. simpl in Ho.
  rewrite Hr. simpl. f_equal.
  destruct (errorMessage e) as [message|raised] eqn:He.
  - destruct Ho as (r & -> & Hfile & Hnum & Hs & Hp & Hres & m & [= <-] & Herr).
    f_equal. destruct r; simpl in *; subst; reflexivity.
  - exact Ho.
Qed.

(** X6: of its own console calls, a run that returns has made one
    [console.error] for each failed result and none otherwise. *)
Theorem runAllTests_one_console_error_per_failure
    (s s' : RunState (World R)) rs :
  runAllTests R this s = (Return rs, s') ->
  ownErrorCalls (console s') = ownErrorCalls (console s) + failedCount rs.
Proof.
  intros Hrun.
  destruct (getTestFiles R this s) as [[files|e] s1] eqn:Hls.
  - pose proof (@runAllTests_returned R this _ _ _ _ _ Hls Hrun) as Hnone.
    destruct (@runAllTests_trace R this _ _ _ Hls Hnone)
      as (rs' & out & Hrun' & _ & _ & _ & Hcount).
    rewrite Hrun' in Hrun. injection Hrun as <- <-.
    simpl. rewrite ownErrorCalls_app.
    change (foundLine R files :: out) with ([foundLine R files] ++ out).
    rewrite ownErrorCalls_app, Hcount. reflexivity.
  - unfold runAllTests in Hrun. unfold bind at 1 in Hrun.
    rewrite Hls in Hrun. discriminate.
Qed.

(** X7: failures of the read and of the agent are both kept inside their
    test, as long as what they raise is an [Error] or a value [String]
    converts.  After a listing of K files the run then returns K results;
    a result has [success = true] exactly when its file was read and
    answered, otherwise its [error] is the message of what was raised,
    [error.message] for an [Error] and [String(error)] otherwise; and
    every file is attempted, in order, in the world its predecessor
    left. *)
Theorem runAllTests_isolates_every_failure (s s1 : RunState (World R)) files :
  getTestFiles R this s = (Return files, s1) ->
  Forall (fun a => describable a = true) (attempts R files (world s1)) ->
  exists rs s',
    runAllTests R this s = (Return rs, s') /\
    List.length rs = List.length files /\
    map success rs = map completed (attempts R files (world s1)) /\
    Forall2 ReportsFailure (attempts R files (world s1)) rs /\
    world s' = worldAfter R files (world s1).
Proof.
  intros Hls Hconv.
  assert (Hnone : firstEscape (attempts R files (world s1)) = None).
  { apply firstEscape_None. eapply Forall_impl; [|exact Hconv].
    intros a. apply escapes_describable. }
  destruct (@runAllTests_trace R this _ _ _ Hls Hnone)
    as (rs & out & Hrun & _ & _ & Hrecs & _).
  eexists. eexists. split; [exact Hrun|].
  split; [|split; [|split]].
  - rewrite <- (Forall2_length_eq Hrecs). apply attempts_length.
  - apply (Forall2_map_eq success completed Records_success Hrecs).
  - eapply Forall2_impl; [|exact Hrecs]. apply Records_reports.
  - reflexivity.
Qed.

(** X8: when no listed name carries the extension, the run returns no
    result, announces zero files and makes no call after the listing. *)
Theorem runAllTests_without_test_files (s : RunState (World R)) files w' :
  fs_readdir R (testsDir this) (world s) = (Return files, w') ->
  testNames files = [] ->
  runAllTests R this s
  = (Return [],
     {| world := w';
        console := console s
                   ++ [console_log
                         [JString (nl ++ str "Found 0 test file(s):" ++ nl)]] |}).
Proof.
  intros Hls Hnone.
  unfold runAllTests, getTestFiles, bind, call, ret, log, write.
  rewrite Hls. unfold selectTestFiles. fold (testNames files).
  rewrite Hnone. reflexivity.
Qed.

End OrchestratorTraces.

(** X4 on a directory whose only test file is empty. *)
Lemma runSingleTest_blank_content_is_sent_example :
  fs_readFile (Demo.runtime DemoHost.emptyTest) (str "tests/1.test")
              (world Demo.start) = (Return [], []) /\
  isBlank [] = true /\
  date_toISOString (Demo.runtime DemoHost.emptyTest) [] = (sampleTime, []) /\
  agent_run (Demo.runtime DemoHost.emptyTest)
            (promptHeader sampleTime ++ instructionBlock) []
    = (Return Demo.ok, [promptHeader sampleTime ++ instructionBlock]) /\
  fst (runSingleTest (Demo.runtime DemoHost.emptyTest) (str "tests/1.test") 1
                     Demo.start)
    = Return {| testFile := str "1.test";
                testNumber := 1;
                prompt := [];
                result := Demo.ok;
                success := true;
                error := None |}.
Proof.
  repeat (split; [reflexivity|]).
  rewrite (@runSingleTest_blank_content_is_sent
             (Demo.runtime DemoHost.emptyTest) (str "tests/1.test") 1 Demo.start
             [] [] sampleTime [] Demo.ok
             [promptHeader sampleTime ++ instructionBlock]
             eq_refl eq_refl eq_refl eq_refl).
  reflexivity.
Defined.

(** X5 on a file that is listed but gone when it is read. *)
Lemma runSingleTest_read_failure_example :
  fs_readFile (Demo.runtime DemoHost.vanished) (str "tests/2.test")
              (world Demo.start)
    = (Throw (JError (str "ENOENT: no such file or directory")), []) /\
  runSingleTest (Demo.runtime DemoHost.vanished) (str "tests/2.test") 2
                Demo.start
    = (Return {| testFile := str "2.test";
                 testNumber := 2;
                 prompt := [];
                 result := JNull;
                 success := false;
                 error := Some (str "ENOENT: no such file or directory") |},
       {| world := [];
          console :=
            [console_log [JString (nl ++ banner)];
             console_log [JString (str "Running Test #2: 2.test")];
             console_log [JString banner];
             console_error
               [JString (nl ++ str "Error running test:");
                JError (str "ENOENT: no such file or directory")]] |}).
Proof.
  split; [reflexivity|].
  rewrite (@runSingleTest_read_failure
             (Demo.runtime DemoHost.vanished) (str "tests/2.test") 2 Demo.start
             (JError (str "ENOENT: no such file or directory")) [] eq_refl).
  reflexivity.
Defined.

(** X6 where the agent rejects two of three files. *)
Lemma runAllTests_one_console_error_per_failure_example :
  exists rs s',
    runAllTests (Demo.runtime DemoHost.mixedFailures) Demo.agent Demo.start
      = (Return rs, s') /\
    failedCount rs = 2 /\
    ownErrorCalls (console s') = 2.
Proof.
  do 2 eexists.
  assert (Hrun : runAllTests (Demo.runtime DemoHost.mixedFailures) Demo.agent
                   Demo.start
                 = (Return
                      (match runAllTests (Demo.runtime DemoHost.mixedFailures)
                               Demo.agent Demo.start with
                       | (Return rs, _) => rs
                       | (Throw _, _) => []
                       end),
                    snd (runAllTests (Demo.runtime DemoHost.mixedFailures)
                           Demo.agent Demo.start)))
    by (vm_compute; reflexivity).
  split; [exact Hrun|]. split; [vm_compute; reflexivity|].
  rewrite (@runAllTests_one_console_error_per_failure
             (Demo.runtime DemoHost.mixedFailures) Demo.agent Demo.start _ _ Hrun).
  vm_compute. reflexivity.
Defined.

(** X7 on three files: the second is gone when it is read and the agent
    rejects the third with a plain string. *)
Lemma runAllTests_isolates_every_failure_example :
  getTestFiles (Demo.runtime DemoHost.vanishedAndRejected) Demo.agent Demo.start
    = (Return [str "tests/1.test"; str "tests/2.test"; str "tests/3.test"],
       Demo.start) /\
  Forall (fun a => describable a = true)
         (attempts (Demo.runtime DemoHost.vanishedAndRejected)
                   [str "tests/1.test"; str "tests/2.test"; str "tests/3.test"]
                   (world Demo.start)) /\
  exists rs s',
    runAllTests (Demo.runtime DemoHost.vanishedAndRejected) Demo.agent Demo.start
      = (Return rs, s') /\
    map success rs = [true; false; false] /\
    map error rs = [None; Some (str "ENOENT: no such file or directory");
                    Some (str "quota exceeded")] /\
    world s' = [buildTestPromptAt sampleTime (str "open example.com");
                buildTestPromptAt sampleTime (str "open other.com")].
Proof.
  assert (H1 : getTestFiles (Demo.runtime DemoHost.vanishedAndRejected)
                 Demo.agent Demo.start
               = (Return [str "tests/1.test"; str "tests/2.test";
                          str "tests/3.test"], Demo.start))
    by reflexivity.
  assert (H2 : Forall (fun a => describable a = true)
                 (attempts (Demo.runtime DemoHost.vanishedAndRejected)
                    [str "tests/1.test"; str "tests/2.test"; str "tests/3.test"]
                    (world Demo.start)))
    by (repeat constructor).
  split; [exact H1|]. split; [exact H2|].
  destruct (@runAllTests_isolates_every_failure
              (Demo.runtime DemoHost.vanishedAndRejected) Demo.agent Demo.start
              Demo.start
              [str "tests/1.test"; str "tests/2.test"; str "tests/3.test"] H1 H2)
    as (rs & s' & Hrun & _ & Hsuccess & Hreports & Hworld).
  exists rs, s'. split; [exact Hrun|]. split; [exact Hsuccess|].
  split; [|exact Hworld].
  inversion Hreports as [|a1 r1 l1 rs1 Hr1 Hrest1]; subst.
  inversion Hrest1 as [|a2 r2 l2 rs2 Hr2 Hrest2]; subst.
  inversion Hrest2 as [|a3 r3 l3 rs3 Hr3 Hrest3]; subst.
  inversion Hrest3; subst.
  destruct Hr2 as (m2 & Hm2 & He2). destruct Hr3 as (m3 & Hm3 & He3).
  simpl in Hr1, Hm2, Hm3. injection Hm3 as <-. subst m2.
  simpl. rewrite Hr1, He2, He3. reflexivity.
Defined.

(** X8 on a directory that holds no test file. *)
Lemma runAllTests_without_test_files_example :
  fs_readdir (Demo.runtime DemoHost.noTests) (testsDir Demo.agent)
             (world Demo.start)
    = (Return [str "notes.txt"; str "README.md"], []) /\
  testNames [str "notes.txt"; str "README.md"] = [] /\
  fst (runAllTests (Demo.runtime DemoHost.noTests) Demo.agent Demo.start)
    = Return [].
Proof.
  split; [reflexivity|]. split; [reflexivity|].
  rewrite (@runAllTests_without_test_files
             (Demo.runtime DemoHost.noTests) Demo.agent Demo.start
             [str "notes.txt"; str "README.md"] [] eq_refl eq_refl).
  reflexivity.
Defined.

(* ----------------------------------------------------------------- *)
(** ** The reporter after a run, and the entry point *)

Section ReportOfRun.

Variable R : Runtime.

(** The reporter, run. *)
Lemma printSummary_run rs (s : RunState (World R)) :
  printSummary R rs s
  = (Return tt,
     {| world := world s;
        console := console s
                   ++ printed (summaryHeader
                               ++ flat_map resultLines rs
                               ++ [tallyLine (List.length rs) (passedCount rs)
                                             (failedCount rs)]) |}).
Proof.
  unfold printSummary, log, write. unfold bind at 1 2 3. simpl.
  unfold bind. rewrite forEach_printSummary_each. simpl.
  rewrite filter_success_length.
  replace (Z.of_nat (List.length rs) - Z.of_nat (passedCount rs))%Z
    with (Z.of_nat (failedCount rs))
    by (pose proof (passed_plus_failed rs); lia).
  unfold printed, tallyLine. rewrite !map_app, <- !app_assoc. reflexivity.
Qed.

Lemma Records_counts attempted rs :
  Forall2 Records attempted rs ->
  passedCount rs = List.length (filter completed attempted) /\
  failedCount rs
  = List.length (filter (fun a => negb (completed a)) attempted).
Proof.
  induction 1 as [|a r attempted rs Hrec _ [IHp IHf]]; [split; reflexivity|].
  rewrite passedCount_cons, failedCount_cons, (Records_success _ _ Hrec).
  simpl. destruct (completed a); simpl; rewrite IHp, IHf; split; reflexivity.
Qed.

Variable this : TestAgent.

(** X10: the report of the results a run returned ends with a tally
    whose total is the number of listed test files, whose passed count is
    the number of files that were read and answered, and whose failed
    count is the number of files for which the read or the agent raised;
    the reporter leaves the world as it is. *)
Theorem printSummary_after_runAllTests (s s1 s' : RunState (World R)) files rs :
  getTestFiles R this s = (Return files, s1) ->
  runAllTests R this s = (Return rs, s') ->
  printSummary R rs s'
  = (Return tt,
     {| world := world s';
        console :=
          console s'
          ++ printed
               (summaryHeader
                ++ flat_map resultLines rs
                ++ [tallyLine
                      (List.length files)
                      (List.length
                         (filter completed (attempts R files (world s1))))
                      (List.length
                         (filter (fun a => negb (completed a))
                                 (attempts R files (world s1))))]) |}).
Proof.
  intros Hls Hrun.
  pose proof (@runAllTests_returned R this s s1 s' files rs Hls Hrun) as Hnone.
  destruct (@runAllTests_trace R this s s1 files Hls Hnone)
    as (rs' & out & Hrun' & _ & _ & Hrecs & _).
  rewrite Hrun' in Hrun. injection Hrun as <- _.
  rewrite printSummary_run.
  destruct (Records_counts Hrecs) as [-> ->].
  rewrite <- (Forall2_length_eq Hrecs), attempts_length. reflexivity.
Qed.

(** X14: the report shows the file name, the ordinal, the success flag
    and the error of a result and nothing else: results that agree on
    these are reported alike, whatever their [prompt] and [result]. *)
Theorem printSummary_ignores_prompt_and_result rs1 rs2 (s : RunState (World R)) :
  Forall2 sameReportFields rs1 rs2 ->
  printSummary R rs1 s = printSummary R rs2 s.
Proof.
  intros Hsame. rewrite !printSummary_run.
  assert (Hlines : flat_map resultLines rs1 = flat_map resultLines rs2
                   /\ map success rs1 = map success rs2).
  { induction Hsame as [|r1 r2 l1 l2 (Hf & Hn & Hs & He) _ [IHl IHs]];
      [split; reflexivity|].
    simpl. rewrite IHl, IHs, Hs.
    unfold resultLines, statusLine, shownError. rewrite Hf, Hn, Hs, He.
    split; reflexivity. }
  destruct Hlines as [Hlines Hsucc].
  unfold passedCount, failedCount. rewrite Hlines, Hsucc.
  now rewrite (Forall2_length_eq Hsame).
Qed.

End ReportOfRun.

(** X10 where the second of three files is gone when it is read. *)
Lemma printSummary_after_runAllTests_example :
  getTestFiles (Demo.runtime DemoHost.vanished) Demo.agent Demo.start
    = (Return [str "tests/1.test"; str "tests/2.test"; str "tests/3.test"],
       Demo.start) /\
  exists rs s',
    runAllTests (Demo.runtime DemoHost.vanished) Demo.agent Demo.start
      = (Return rs, s') /\
    exists lines,
      console (snd (printSummary (Demo.runtime DemoHost.vanished) rs s'))
      = console s'
        ++ printed (lines ++ [nl ++ str "Total: 3 | Passed: 2 | Failed: 1"]).
Proof.
  assert (H1 : getTestFiles (Demo.runtime DemoHost.vanished) Demo.agent Demo.start
               = (Return [str "tests/1.test"; str "tests/2.test";
                          str "tests/3.test"], Demo.start))
    by reflexivity.
  split; [exact H1|].
  do 2 eexists.
  assert (Hrun : runAllTests (Demo.runtime DemoHost.vanished) Demo.agent
                   Demo.start
                 = (Return
                      (match runAllTests (Demo.runtime DemoHost.vanished)
                               Demo.agent Demo.start with
                       | (Return rs, _) => rs
                       | (Throw _, _) => []
                       end),
                    snd (runAllTests (Demo.runtime DemoHost.vanished)
                           Demo.agent Demo.start)))
    by (vm_compute; reflexivity).
  split; [exact Hrun|].
  eexists.
  rewrite (@printSummary_after_runAllTests
             (Demo.runtime DemoHost.vanished) Demo.agent Demo.start Demo.start
             _ _ _ H1 Hrun).
  cbn [snd console]. rewrite app_assoc. reflexivity.
Defined.

(** X14 on two results that differ in [prompt] and [result] only. *)
Lemma printSummary_ignores_prompt_and_result_example :
  Forall2 sameReportFields
    [{| testFile := str "1.test"; testNumber := 1;
        prompt := str "open example.com"; result := Demo.ok;
        success := true; error := None |}]
    [{| testFile := str "1.test"; testNumber := 1;
        prompt := []; result := JString (str "done");
        success := true; error := None |}] /\
  printSummary (Demo.runtime Demo.twoTests)
    [{| testFile := str "1.test"; testNumber := 1;
        prompt := str "open example.com"; result := Demo.ok;
        success := true; error := None |}] Demo.start
  = printSummary (Demo.runtime Demo.twoTests)
    [{| testFile := str "1.test"; testNumber := 1;
        prompt := []; result := JString (str "done");
        success := true; error := None |}] Demo.start.
Proof.
  assert (H : Forall2 sameReportFields
    [{| testFile := str "1.test"; testNumber := 1;
        prompt := str "open example.com"; result := Demo.ok;
        success := true; error := None |}]
    [{| testFile := str "1.test"; testNumber := 1;
        prompt := []; result := JString (str "done");
        success := true; error := None |}])
    by (repeat constructor).
  split; [exact H|].
  exact (@printSummary_ignores_prompt_and_result
           (Demo.runtime Demo.twoTests) _ _ Demo.start H).
Defined.

(* ----------------------------------------------------------------- *)
(** ** The constructor and [index.ts] *)

Section EntryPoint.

Variable H : Host.

Local Abbreviation R := (host_runtime H).

Lemma bind_eq {W A B} (c : Async W A) (k : A -> Async W B) s :
  bind c k s
  = match c s with
    | (Return a, s') => k a s'
    | (Throw e, s') => (Throw e, s')
    end.
Proof. reflexivity. Qed.

Lemma bind_write {W B} entry (k : unit -> Async W B) s :
  bind (write entry) k s
  = k tt {| world := world s; console := console s ++ [entry] |}.
Proof. reflexivity. Qed.

(** The constructor calls outward three times, writes nothing, and
    builds the agent from the directory option alone. *)
Lemma newTestAgent_run config (s : RunState (World R)) :
  exists c w',
    (forall written,
        newTestAgent H config {| world := world s; console := written |}
        = (c, {| world := w'; console := written |})) /\
    match c with
    | Return agent =>
        agent = constructor {| config_testsDir := testsDirOption config |}
    | Throw _ => True
    end.
Proof.
  unfold newTestAgent, bind, call, ret. cbn [world console].
  destruct (MCPClient_fromDict H (serversOrDefault (mcpServers config)) (world s))
    as [[[]|e1] w1]; cbn [world console]; [|exists (Throw e1), w1; auto].
  destruct (ChatOpenAI_new H
              {| llm_model := modelOrDefault (modelName config);
                 llm_apiKey := apiKey config;
                 llm_baseURL := baseURL config |} w1) as [[[]|e2] w2];
    cbn [world console]; [|exists (Throw e2), w2; auto].
  destruct (MCPAgent_new H (maxStepsOrDefault (maxSteps config)) w2)
    as [[[]|e3] w3];
    cbn [world console]; [|exists (Throw e3), w3; auto].
  eexists (Return _), w3. split; reflexivity.
Qed.

(** [main], case by case: the constructor raises, the listing raises, a
    test leaves its [catch] block, or the run and its report complete. *)
Lemma main_run env (s : RunState (World R)) :
  match newTestAgent H (configOfEnv env) s with
  | (Throw e, s1) =>
      main H env s
      = (Throw e, {| world := world s1;
                     console := console s ++ [announcement env] |})
  | (Return agent, s1) =>
      match fs_readdir R (testsDir agent) (world s1) with
      | (Throw e, w2) =>
          main H env s
          = (Throw e, {| world := w2;
                         console := console s ++ [announcement env] |})
      | (Return files, w2) =>
          match firstEscape (attempts R (selectTestFiles R agent files) w2) with
          | Some t =>
              exists w' out,
                main H env s
                = (Throw t,
                   {| world := w';
                      console := console s ++ announcement env :: out |})
          | None =>
              exists out,
                main H env s
                = (Return tt,
                   {| world := worldAfter R (selectTestFiles R agent files) w2;
                      console := console s ++ announcement env :: out |})
          end
      end
  end.
Proof.
  destruct (newTestAgent_run (configOfEnv env) s) as (c & w' & Hnew & Hagent).
  assert (Hs : newTestAgent H (configOfEnv env) s
               = (c, {| world := w'; console := console s |})).
  { rewrite <- (Hnew (console s)). destruct s; reflexivity. }
  rewrite Hs.
  unfold main, log. rewrite bind_write, bind_eq, Hnew.
  destruct c as [agent|e]; [|reflexivity].
  cbn [world]. rewrite bind_eq.
  destruct (fs_readdir R (testsDir agent) w') as [[files|e] w2] eqn:Hls.
  - match goal with
    | |- context [runAllTests R agent ?st] =>
        assert (Hget : getTestFiles R agent st
                       = (Return (selectTestFiles R agent files),
                          {| world := w2; console := console st |}))
          by (unfold getTestFiles, bind, call, ret; cbn [world console];
              rewrite Hls; reflexivity)
    end.
    destruct (firstEscape (attempts R (selectTestFiles R agent files) w2))
      as [t|] eqn:Hesc.
    + destruct (@runAllTests_escape R agent _ _ _ t Hget Hesc)
        as (w3 & out & Hrun).
      rewrite Hrun. exists w3. eexists.
      cbn [world console]. rewrite <- !app_assoc. reflexivity.
    + destruct (@runAllTests_trace R agent _ _ _ Hget Hesc)
        as (rs & out & Hrun & _).
      rewrite Hrun, printSummary_run.
      eexists. cbn [world console]. rewrite <- !app_assoc. reflexivity.
  - unfold runAllTests, getTestFiles. rewrite !bind_eq.
    unfold call. cbn [world console]. rewrite Hls. reflexivity.
Qed.

(** X11: the entry point never rejects.  Its handler calls
    [console.error], with the raised value, exactly when [main] raised,
    and [main] raises in three cases only: a constructor raised, the
    listing raised, or a test raised a value whose message cannot be
    built, so that line 115 raised out of the [catch] block.  A test
    that fails with an [Error] or a value [String] converts never
    reaches the handler. *)
Theorem index_never_rejects env (s : RunState (World R)) :
  exists s',
    index H env s = (Return tt, s') /\
    match main H env s with
    | (Return _, s1) =>
        s' = s1 /\
        exists agent s2 files w3,
          newTestAgent H (configOfEnv env) s = (Return agent, s2) /\
          fs_readdir R (testsDir agent) (world s2) = (Return files, w3) /\
          Forall (fun a => describable a = true)
                 (attempts R (selectTestFiles R agent files) w3)
    | (Throw e, s1) =>
        s' = {| world := world s1;
                console := console s1 ++ [console_error [e]] |} /\
        (fst (newTestAgent H (configOfEnv env) s) = Throw e \/
         (exists agent s2,
             newTestAgent H (configOfEnv env) s = (Return agent, s2) /\
             fst (fs_readdir R (testsDir agent) (world s2)) = Throw e) \/
         (exists agent s2 files w3 a,
             newTestAgent H (configOfEnv env) s = (Return agent, s2) /\
             fs_readdir R (testsDir agent) (world s2) = (Return files, w3) /\
             In a (attempts R (selectTestFiles R agent files) w3) /\
             describable a = false /\
             e = cannotConvert))
    end.
Proof.
  unfold index, try_catch, write.
  pose proof (main_run env s) as Hmain.
  destruct (newTestAgent H (configOfEnv env) s) as [[agent|e] s1] eqn:Hnew.
  - destruct (fs_readdir R (testsDir agent) (world s1)) as [[files|e] w2] eqn:Hls.
    + destruct (firstEscape (attempts R (selectTestFiles R agent files) w2))
        as [t|] eqn:Hesc.
      * destruct Hmain as (w' & out & ->). eexists. split; [reflexivity|].
        split; [reflexivity|]. right. right.
        destruct (firstEscape_Some _ Hesc) as (a & Hin & Hconv & ->).
        exists agent, s1, files, w2, a. auto.
      * destruct Hmain as [out ->]. eexists. split; [reflexivity|].
        split; [reflexivity|]. exists agent, s1, files, w2.
        split; [reflexivity|]. split; [exact Hls|].
        now apply firstEscape_None_all.
    + rewrite Hmain. eexists. split; [reflexivity|].
      split; [reflexivity|]. right. left. exists agent, s1. rewrite Hls. auto.
  - rewrite Hmain. eexists. split; [reflexivity|].
    split; [reflexivity|]. left. reflexivity.
Qed.

(** X12: the directory [main] announces on its first line is the one
    the agent it builds lists, also when [TESTS_DIR] is unset or empty;
    the line is written before anything else and stays first. *)
Theorem main_announces_the_listed_directory env (s s1 : RunState (World R)) agent :
  newTestAgent H (configOfEnv env) s = (Return agent, s1) ->
  exists later,
    console (snd (main H env s))
    = console s
      ++ console_log
           [JString (str "Using tests directory: " ++ testsDir agent)]
      :: later.
Proof.
  intros Hnew.
  destruct (newTestAgent_run (configOfEnv env) s) as (c & w' & Hany & Hagent).
  assert (Hs : newTestAgent H (configOfEnv env) s
               = (c, {| world := w'; console := console s |})).
  { rewrite <- (Hany (console s)). destruct s; reflexivity. }
  rewrite Hnew in Hs. injection Hs as <- _.
  pose proof (main_run env s) as Hmain. rewrite Hnew in Hmain.
  cbn [testsDirOption configOfEnv] in Hagent.
  unfold announcement in Hmain. rewrite <- Hagent in Hmain.
  destruct (fs_readdir R (testsDir agent) (world s1)) as [[files|e] w2].
  - destruct (firstEscape (attempts R (selectTestFiles R agent files) w2)).
    + destruct Hmain as (w3 & out & ->). exists out. reflexivity.
    + destruct Hmain as [out ->]. exists out. reflexivity.
  - rewrite Hmain. exists []. reflexivity.
Qed.

End EntryPoint.

(** X12 with [TESTS_DIR] set to [tests]. *)
Lemma main_announces_the_listed_directory_example :
  newTestAgent (DemoHost.host Demo.twoTests) (configOfEnv DemoHost.env) Demo.start
    = (Return Demo.agent, Demo.start) /\
  exists later,
    console (snd (main (DemoHost.host Demo.twoTests) DemoHost.env Demo.start))
    = console_log [JString (str "Using tests directory: tests")] :: later.
Proof.
  split; [reflexivity|].
  destruct (@main_announces_the_listed_directory
              (DemoHost.host Demo.twoTests) DemoHost.env Demo.start Demo.start
              Demo.agent eq_refl) as [later Hlater].
  exists later. exact Hlater.
Defined.

(** The entry point without a key: the constructor raises, the handler
    reports it and no test is run. *)
Example index_without_api_key :
  index (DemoHost.host Demo.twoTests)
        {| MODEL_NAME := None; API_KEY := None; BASE_URL := None;
           TESTS_DIR := None |}
        Demo.start
  = (Return tt,
     {| world := [];
        console := [console_log [JString (str "Using tests directory: ./tests")];
                    console_error [JError (str "OpenAI API key not found")]] |}).
Proof. reflexivity. Qed.

(** The entry point with an agent that rejects with [{ toString: 1 }]:
    the first test raises out of its [catch] block, the handler reports
    the [TypeError], the second test is not run and no summary is
    printed. *)
Example index_with_unconvertible_rejection :
  exists written,
    index (DemoHost.host DemoHost.rejectsWithObject) DemoHost.env Demo.start
    = (Return tt,
       {| world := [buildTestPromptAt sampleTime (str "open example.com")];
          console := written ++ [console_error [cannotConvert]] |}) /\
    ownErrorCalls written = 1.
Proof.
  eexists. split.
  - vm_compute. match goal with
    | |- (_, {| world := _; console := ?l |}) = _ =>
        rewrite <- (firstn_skipn (List.length l - 1) l)
    end. reflexivity.
  - vm_compute. reflexivity.
Qed.
